(** * bcc-exporter: the profiling handlers of [main.go]

    A shallow embedding of the HTTP handlers of bcc-exporter
    ([runProfile], [validatePID], [checkRequiredTools], [runPerfProfile],
    [runBCCProfile], [generateMockProfile]) together with the small part of
    the Go standard library they call.  The operating system (process table,
    search path, temporary directories, subprocesses) is an explicit
    environment [World]; the handlers run in a state monad over the file
    system, the response recorder and a trace of the calls they make. *)

From stdpp Require Import gmap strings list fin_maps pretty.
From Stdlib Require Import Ascii ZArith Lia.

(** ** Results of fallible calls *)

Inductive result (E A : Type) : Type :=
| Ok (a : A)
| Err (e : E).
Arguments Ok {E A} a.
Arguments Err {E A} e.

(** A Go [error]: [None] is [nil], [Some msg] carries the text of [Error()]. *)
Abbreviation error := (option string).

(** The line feed, Go's ["\n"]. *)
Definition LF : string := String (Ascii.ascii_of_nat 10) EmptyString.

(** ** Package [strings] *)

Module strings.

(** [strings.HasPrefix(s, prefix)] *)
Fixpoint HasPrefix (s prefix : string) {struct prefix} : bool :=
  match prefix, s with
  | EmptyString, _ => true
  | String _ _, EmptyString => false
  | String a p', String b s' => if Ascii.eqb a b then HasPrefix s' p' else false
  end.

(** [strings.Contains(s, substr)] *)
Fixpoint Contains (s substr : string) : bool :=
  if HasPrefix s substr then true
  else match s with
       | EmptyString => false
       | String _ s' => Contains s' substr
       end.

(** [strings.Join(elems, sep)] *)
Fixpoint Join (elems : list string) (sep : string) : string :=
  match elems with
  | [] => ""
  | [e] => e
  | e :: rest => e +:+ sep +:+ Join rest sep
  end.

End strings.

(** ** Package [strconv] *)

Module strconv.

(** [int] is 64 bits wide on the platforms the exporter targets. *)
Definition intSize : Z := 64.
Definition maxInt : Z := 2 ^ (intSize - 1) - 1.
Definition minInt : Z := - 2 ^ (intSize - 1).

Inductive NumError : Type :=
| ErrSyntax
| ErrRange.

Definition digit (c : Ascii.ascii) : option Z :=
  let n := Z.of_N (Ascii.N_of_ascii c) in
  if bool_decide (48 ≤ n ≤ 57)%Z then Some (n - 48)%Z else None.

(** The digit loop: base 10, no underscores, no blanks. *)
Fixpoint digits (s : string) (acc : Z) : option Z :=
  match s with
  | EmptyString => Some acc
  | String c s' =>
      match digit c with
      | Some d => digits s' (acc * 10 + d)%Z
      | None => None
      end
  end.

Definition unsigned (s : string) : option Z :=
  match s with
  | EmptyString => None
  | _ => digits s 0%Z
  end.

(** [strconv.Atoi(s)]: an optional sign, then one or more decimal digits;
    a value that does not fit [int] is a range error. *)
Definition Atoi (s : string) : result NumError Z :=
  let '(neg, rest) :=
    match s with
    | String c r =>
        if Ascii.eqb c "-"%char then (true, r)
        else if Ascii.eqb c "+"%char then (false, r)
        else (false, s)
    | EmptyString => (false, s)
    end in
  match unsigned rest with
  | None => Err ErrSyntax
  | Some un =>
      let n := if neg then (- un)%Z else un in
      if bool_decide (minInt ≤ n ≤ maxInt)%Z then Ok n else Err ErrRange
  end.

(** The verb [%d] of [fmt.Sprintf] on an [int]. *)
Definition Itoa (n : Z) : string := pretty n.

End strconv.

(** ** Package [net/http]: status codes and the response recorder *)

Module http.

Definition StatusOK : Z := 200.
Definition StatusBadRequest : Z := 400.
Definition StatusUnauthorized : Z := 401.
Definition StatusForbidden : Z := 403.
Definition StatusInternalServerError : Z := 500.

(** [http.Header] and [url.Values] are both [map[string][]string]. *)
Abbreviation Header := (gmap string (list string)).
Abbreviation Values := (gmap string (list string)).

(** [Values.Get(key)]: the first value of the key, or the empty string. *)
Definition Get (v : Values) (key : string) : string :=
  match v !! key with
  | Some (x :: _) => x
  | _ => ""
  end.

Definition Set_ (h : Header) (key value : string) : Header :=
  <[key := [value]]> h.

Definition Del (h : Header) (key : string) : Header := delete key h.

(** What the handler has written so far, as [httptest.ResponseRecorder]
    keeps it: the status is 200 until [WriteHeader] is called. *)
Record ResponseWriter : Type := mkResponse {
  header : Header;
  wroteHeader : bool;
  code : Z;
  body : string;
}.

Definition NewRecorder : ResponseWriter :=
  {| header := ∅; wroteHeader := false; code := StatusOK; body := "" |}.

Definition WriteHeader (c : Z) (w : ResponseWriter) : ResponseWriter :=
  if wroteHeader w then w
  else {| header := header w; wroteHeader := true; code := c; body := body w |}.

Definition Write (b : string) (w : ResponseWriter) : ResponseWriter :=
  let w' := WriteHeader StatusOK w in
  {| header := header w'; wroteHeader := wroteHeader w'; code := code w';
     body := body w' +:+ b |}.

Definition SetHeader (key value : string) (w : ResponseWriter) : ResponseWriter :=
  {| header := Set_ (header w) key value; wroteHeader := wroteHeader w;
     code := code w; body := body w |}.

Definition DelHeader (key : string) (w : ResponseWriter) : ResponseWriter :=
  {| header := Del (header w) key; wroteHeader := wroteHeader w;
     code := code w; body := body w |}.

(** [http.Error(w, error, code)] *)
Definition Error (msg : string) (c : Z) (w : ResponseWriter) : ResponseWriter :=
  let w := DelHeader "Content-Length" w in
  let w := SetHeader "Content-Type" "text/plain; charset=utf-8" w in
  let w := SetHeader "X-Content-Type-Options" "nosniff" w in
  let w := WriteHeader c w in
  Write (msg +:+ LF) w.

Record Request : Type := mkRequest {
  query : Values;
}.

End http.

(** ** The operating system *)

(** A path names a directory or a regular file with its bytes.  Only the
    size of a directory is visible to [os.Stat]. *)
Inductive node : Type :=
| Dir (size : Z)
| File (content : string).

Abbreviation FS := (gmap string node).

(** The size [os.Stat] reports. *)
Definition nodeSize (n : node) : Z :=
  match n with
  | Dir size => size
  | File content => Z.of_nat (String.length content)
  end.

(** What [cmd.Run()] leaves behind: its error ([nil] for exit status zero),
    the bytes the child wrote to its standard output and standard error, and
    the file system after the child has run. *)
Record RunOutcome : Type := mkRun {
  run_err : error;
  run_stdout : string;
  run_stderr : string;
  run_fs : FS;
}.

(** The environment the exporter runs in.  Nothing is assumed about it: the
    theorems below hold for every [World]. *)
Record World : Type := mkWorld {
  (** [os.TempDir()] *)
  tmp_root : string;
  (** the random number [os.MkdirTemp] puts in the directory name *)
  temp_random : N;
  (** [os.MkdirTemp] failing to create the directory *)
  mkdir_fault : error;
  (** [os.Stat] failing for a reason other than the path being absent *)
  stat_fault : string → error;
  (** [exec.LookPath]: the resolved path, or the error *)
  look_path : string → result string string;
  (** running a command with its arguments on a file system *)
  run_cmd : string → list string → FS → RunOutcome;
  (** [os.Open] failing although the path is present *)
  open_fault : string → error;
  (** reading an open file failing after some bytes *)
  read_fault : string → option (nat * string);
  (** [os.RemoveAll] failing on a file system: what it leaves behind, and
      the error *)
  remove_fault : string → FS → option (FS * string);
}.

(** The calls a handler makes, in the order it makes them. *)
Inductive Event : Type :=
| EvStat (path : string)
| EvLookPath (file : string)
| EvMkdirTemp (dir pattern : string)
| EvRun (name : string) (args : list string)
| EvOpen (path : string)
| EvRead (path : string)
| EvClose (path : string)
| EvRemoveAll (path : string)
| EvLog (msg : string).

(** A call registered with [defer], its arguments already evaluated. *)
Inductive Deferred : Type :=
| DeferRemoveAll (path : string)
| DeferClose (path : string).

Record State : Type := mkState {
  fs : FS;
  w : http.ResponseWriter;
  trace : list Event;
  deferred : list Deferred;
}.

(** ** The handler monad *)

Definition M (A : Type) : Type := State → A * State.

#[global] Instance M_ret : MRet M := λ A a st, (a, st).
#[global] Instance M_bind : MBind M :=
  λ A B f m st, let '(a, st') := m st in f a st'.

Definition emit (e : Event) : M unit :=
  λ st, (tt, {| fs := fs st; w := w st; trace := trace st ++ [e];
                deferred := deferred st |}).

Definition respond (f : http.ResponseWriter → http.ResponseWriter) : M unit :=
  λ st, (tt, {| fs := fs st; w := f (w st); trace := trace st;
                deferred := deferred st |}).

Definition set_fs (f : FS → FS) : M unit :=
  λ st, (tt, {| fs := f (fs st); w := w st; trace := trace st;
                deferred := deferred st |}).

Definition get_fs : M FS := λ st, (fs st, st).

Definition log_Printf (msg : string) : M unit := emit (EvLog msg).

(** *** Package [os] *)

Inductive StatResult : Type :=
| StatInfo (size : Z)
| StatNotExist
| StatFail (msg : string).

(** [p] is [dir] itself or lies below it. *)
Definition under (dir p : string) : bool :=
  String.eqb p dir || strings.HasPrefix p (dir +:+ "/").

(** [filepath.Join(dir, name)] for a clean directory path and a plain name. *)
Definition filepath_Join (dir name : string) : string := dir +:+ "/" +:+ name.

(** The [joinPath] of package [os]. *)
Definition joinPath (dir name : string) : string :=
  if strings.HasPrefix (String.rev dir) "/" then dir +:+ name
  else dir +:+ "/" +:+ name.

Section OS.

Variable env : World.

Definition os_Stat (path : string) : M StatResult :=
  emit (EvStat path);;
  files ← get_fs;
  match stat_fault env path with
  | Some e => mret (StatFail e)
  | None =>
      match files !! path with
      | None => mret StatNotExist
      | Some n => mret (StatInfo (nodeSize n))
      end
  end.

Definition exec_LookPath (file : string) : M (result string string) :=
  emit (EvLookPath file);;
  mret (look_path env file).

(** [os.MkdirTemp(dir, pattern)], for a pattern without [*]: the new
    directory is [pattern] followed by a random number, inside [dir] or,
    when [dir] is empty, inside [os.TempDir()]. *)
Definition os_MkdirTemp (dir pattern : string) : M (result string string) :=
  emit (EvMkdirTemp dir pattern);;
  match mkdir_fault env with
  | Some e => mret (Err e)
  | None =>
      let base := if String.eqb dir "" then tmp_root env else dir in
      let name := joinPath base (pattern +:+ pretty (temp_random env)) in
      set_fs (λ files, <[name := Dir 4096]> files);;
      mret (Ok name)
  end.

(** What [os.RemoveAll(path)] leaves of a file system: nothing at or below
    the path when it succeeds, what the environment says when it fails
    (some or all of it may still be there). *)
Definition removed (path : string) (files : FS) : FS :=
  match remove_fault env path files with
  | Some (rest, _) => rest
  | None => filter (λ kv, under path kv.1 = false) files
  end.

(** [os.RemoveAll(path)]: the path and everything below it, or an error;
    the empty path is left alone. *)
Definition os_RemoveAll (path : string) : M error :=
  emit (EvRemoveAll path);;
  if String.eqb path "" then mret None
  else
    files ← get_fs;
    set_fs (λ _, removed path files);;
    mret (match remove_fault env path files with
          | Some (_, e) => Some e
          | None => None
          end).

(** [exec.Command(name, args...)] followed by [Run()]: the outcome the
    environment gives, its file system taking the place of ours. *)
Definition exec_Run (name : string) (args : list string) : M RunOutcome :=
  emit (EvRun name args);;
  files ← get_fs;
  let out := run_cmd env name args files in
  set_fs (λ _, run_fs out);;
  mret out.

Record OpenFile : Type := mkOpenFile {
  f_name : string;
  f_node : node;
}.

Definition os_Open (path : string) : M (result string OpenFile) :=
  emit (EvOpen path);;
  files ← get_fs;
  match open_fault env path with
  | Some e => mret (Err e)
  | None =>
      match files !! path with
      | None => mret (Err ("open " +:+ path +:+ ": no such file or directory"))
      | Some n => mret (Ok {| f_name := path; f_node := n |})
      end
  end.

Definition file_Close (path : string) : M unit := emit (EvClose path).

(** [io.Copy(w, f)]: the bytes read are written to the response; nothing is
    written when nothing was read. *)
Definition io_Copy (f : OpenFile) : M error :=
  emit (EvRead (f_name f));;
  match f_node f with
  | Dir _ => mret (Some ("read " +:+ f_name f +:+ ": is a directory"))
  | File content =>
      let '(chunk, err) :=
        match read_fault env (f_name f) with
        | None => (content, None)
        | Some (n, e) => (String.substring 0 n content, Some e)
        end in
      (if String.eqb chunk "" then mret tt else respond (http.Write chunk));;
      mret err
  end.

(** *** [defer] *)

Definition defer (d : Deferred) : M unit :=
  λ st, (tt, {| fs := fs st; w := w st; trace := trace st;
                deferred := d :: deferred st |}).

(** A deferred call runs for its effect: what it returns, an error
    included, is dropped. *)
Definition run_deferred (d : Deferred) : M unit :=
  match d with
  | DeferRemoveAll path => os_RemoveAll path;; mret tt
  | DeferClose path => file_Close path
  end.

(** The deferred calls run last registered first. *)
Fixpoint run_all (ds : list Deferred) : M unit :=
  match ds with
  | [] => mret tt
  | d :: rest => run_deferred d;; run_all rest
  end.

(** A function body with its own stack of deferred calls, all of which run
    when the body returns, on whichever path it returns. *)
Definition func {A : Type} (body : M A) : M A :=
  λ st,
    let '(a, st1) :=
      body {| fs := fs st; w := w st; trace := trace st; deferred := [] |} in
    let '(_, st2) := run_all (deferred st1) st1 in
    (a, {| fs := fs st2; w := w st2; trace := trace st2;
           deferred := deferred st |}).

End OS.

(** ** The handlers of [main.go] *)

Section Handlers.

Variable env : World.

Definition generateMockProfile (pid : string) (duration : Z) : string :=
  "# Mock profile data for PID " +:+ pid +:+ ", duration " +:+
  strconv.Itoa duration +:+ " seconds
main;runtime.main;main.main;net/http.ListenAndServe;net/http.(*Server).Serve 10
main;runtime.main;main.main;net/http.ListenAndServe;net/http.(*Server).Serve;net/http.(*conn).serve 25
main;runtime.main;main.main;net/http.ListenAndServe;net/http.(*Server).Serve;net/http.(*conn).serve;net/http.serverHandler.ServeHTTP 15
redis-server;main;aeMain;aeProcessEvents;aeApiPoll 50
redis-server;main;aeMain;aeProcessEvents;processCommand;lookupCommand 30
redis-server;main;aeMain;aeProcessEvents;processCommand;call 40
".

(** [validatePID] checks that the PID is a number and that [/proc/<pid>]
    exists and can be inspected. *)
Definition validatePID (pid : string) : M error :=
  match strconv.Atoi pid with
  | Err _ => mret (Some ("invalid PID format: " +:+ pid))
  | Ok _ =>
      let procPath := "/proc/" +:+ pid in
      r ← os_Stat env procPath;
      match r with
      | StatNotExist => mret (Some ("process with PID " +:+ pid +:+ " does not exist"))
      | StatFail e => mret (Some ("cannot access process " +:+ pid +:+ ": " +:+ e))
      | StatInfo _ => mret None
      end
  end.

(** [checkRequiredTools] looks [perf] up, then [pprof]. *)
Definition checkRequiredTools : M error :=
  r ← exec_LookPath env "perf";
  match r with
  | Err e =>
      mret (Some ("perf tool not found: " +:+ e +:+
                  ". Install with: sudo apt-get install linux-perf"))
  | Ok _ =>
      r ← exec_LookPath env "pprof";
      match r with
      | Err e =>
          mret (Some ("pprof tool not found: " +:+ e +:+
                      ". Install with: go install github.com/google/pprof@latest"))
      | Ok _ => mret None
      end
  end.

(** [runPerfProfile]: [perf record], the conversion by [pprof], and the
    binary profile streamed to the client. *)
Definition runPerfProfile (pid : string) (duration : Z) : M unit :=
  func env (
    err ← checkRequiredTools;
    match err with
    | Some e =>
        respond (http.Error ("Required tools not available: " +:+ e)
                   http.StatusInternalServerError)
    | None =>
    r ← os_MkdirTemp env "" "bcc-exporter-";
    match r with
    | Err e =>
        respond (http.Error ("Failed to create temp directory: " +:+ e)
                   http.StatusInternalServerError)
    | Ok tempDir =>
    defer (DeferRemoveAll tempDir);;
    let perfDataPath := filepath_Join tempDir "perf.data" in
    let pprofPath := filepath_Join tempDir "profile.pb.gz" in
    log_Printf ("Starting perf record for PID " +:+ pid +:+ ", duration " +:+
                strconv.Itoa duration +:+ " seconds");;
    perf ← exec_Run env "perf"
      ["record"; "-g"; "--pid"; pid; "-F"; "999"; "-o"; perfDataPath; "--";
       "sleep"; strconv.Itoa duration];
    match run_err perf with
    | Some e =>
        log_Printf ("perf record failed: " +:+ e);;
        log_Printf ("perf stderr: " +:+ run_stderr perf);;
        let stderrStr := run_stderr perf in
        if strings.Contains stderrStr "Permission denied" then
          respond (http.Error "Permission denied: perf requires elevated privileges. Run with sudo or adjust perf_event_paranoid settings."
                     http.StatusForbidden)
        else if strings.Contains stderrStr "No such process" then
          respond (http.Error ("Process with PID " +:+ pid +:+
                               " not found or exited during profiling")
                     http.StatusBadRequest)
        else
          respond (http.Error ("perf record failed: " +:+ e +:+ LF +:+
                               "Stderr: " +:+ stderrStr)
                     http.StatusInternalServerError)
    | None =>
    stat ← os_Stat env perfDataPath;
    match stat with
    | StatNotExist | StatFail _ =>
        respond (http.Error "perf.data file was not created"
                   http.StatusInternalServerError)
    | StatInfo size =>
    if bool_decide (size = 0%Z) then
      respond (http.Error "perf.data file is empty - no samples collected"
                 http.StatusInternalServerError)
    else
    log_Printf "Converting perf.data to pprof format";;
    conv ← exec_Run env "pprof" ["-proto"; "-output"; pprofPath; perfDataPath];
    match run_err conv with
    | Some e =>
        log_Printf ("pprof conversion failed: " +:+ e);;
        log_Printf ("pprof stderr: " +:+ run_stderr conv);;
        let stderrStr := run_stderr conv in
        if strings.Contains stderrStr "no samples" then
          respond (http.Error "No samples found in perf.data - process may have been idle during profiling"
                     http.StatusBadRequest)
        else if strings.Contains stderrStr "permission denied" then
          respond (http.Error "Permission denied accessing perf.data file"
                     http.StatusForbidden)
        else
          respond (http.Error ("pprof conversion failed: " +:+ e +:+ LF +:+
                               "Stderr: " +:+ stderrStr)
                     http.StatusInternalServerError)
    | None =>
    stat ← os_Stat env pprofPath;
    match stat with
    | StatNotExist | StatFail _ =>
        respond (http.Error "pprof file was not created"
                   http.StatusInternalServerError)
    | StatInfo size =>
    if bool_decide (size = 0%Z) then
      respond (http.Error "pprof file is empty - conversion produced no data"
                 http.StatusInternalServerError)
    else
    opened ← os_Open env pprofPath;
    match opened with
    | Err e =>
        respond (http.Error ("Failed to open pprof file: " +:+ e)
                   http.StatusInternalServerError)
    | Ok pprofFile =>
    defer (DeferClose (f_name pprofFile));;
    respond (http.SetHeader "Content-Type" "application/octet-stream");;
    respond (http.SetHeader "Content-Disposition"
               ("attachment; filename=profile-" +:+ pid +:+ "-" +:+
                strconv.Itoa duration +:+ ".pb.gz"));;
    copied ← io_Copy env pprofFile;
    match copied with
    | Some e => log_Printf ("Failed to stream pprof file: " +:+ e)
    | None => log_Printf ("Successfully served pprof profile for PID " +:+ pid)
    end
    end end end end end end end).

(** [runBCCProfile]: the BCC profiler, its standard output sent back as it
    is. *)
Definition runBCCProfile (pid : string) (duration : Z) : M unit :=
  let args := ["profile-bpfcc"; "-p"; pid; "-F"; "999"; "-f";
               strconv.Itoa duration] in
  log_Printf ("Running command: sudo " +:+ strings.Join args " ");;
  cmd ← exec_Run env "sudo" args;
  match run_err cmd with
  | Some e =>
      log_Printf ("Command failed: " +:+ e);;
      log_Printf ("Stderr: " +:+ run_stderr cmd);;
      respond (http.Error ("Profiler failed: " +:+ e +:+ LF +:+ "Stderr: " +:+
                           run_stderr cmd)
                 http.StatusInternalServerError)
  | None =>
      respond (http.SetHeader "Content-Type" "text/plain");;
      respond (http.Write (run_stdout cmd))
  end.

Definition runProfile (r : http.Request) (format : string) : M unit :=
  let pid := http.Get (http.query r) "pid" in
  let seconds := http.Get (http.query r) "seconds" in
  let testMode := String.eqb (http.Get (http.query r) "test") "true" in
  if String.eqb pid "" || String.eqb seconds "" then
    respond (http.Error "Missing pid or seconds" http.StatusBadRequest)
  else
  match strconv.Atoi seconds with
  | Err _ => respond (http.Error "Invalid seconds" http.StatusBadRequest)
  | Ok dur =>
  if bool_decide (dur ≤ 0)%Z || bool_decide (dur > 300)%Z then
    respond (http.Error "Invalid seconds" http.StatusBadRequest)
  else
  if testMode then
    let mockData := generateMockProfile pid dur in
    (if String.eqb format "pprof" then
       respond (http.SetHeader "Content-Type" "application/octet-stream")
     else
       respond (http.SetHeader "Content-Type" "text/plain"));;
    respond (http.Write mockData)
  else
  err ← validatePID pid;
  match err with
  | Some e => respond (http.Error ("Invalid PID: " +:+ e) http.StatusBadRequest)
  | None =>
      if String.eqb format "pprof" then runPerfProfile pid dur
      else runBCCProfile pid dur
  end
  end.

Definition handlePprof (r : http.Request) : M unit := runProfile r "pprof".

Definition handleFolded (r : http.Request) : M unit := runProfile r "folded".

End Handlers.

(** ** Requests and observations *)

(** The state in which the server hands a request to a handler: nothing
    written, nothing called yet. *)
Definition start (files : FS) : State :=
  {| fs := files; w := http.NewRecorder; trace := []; deferred := [] |}.

(** The state a handler leaves behind. *)
Definition serve (h : M unit) (files : FS) : State := (h (start files)).2.

Definition status (st : State) : Z := http.code (w st).
Definition reply (st : State) : string := http.body (w st).
Definition contentType (st : State) : option (list string) :=
  http.header (w st) !! "Content-Type".

(** The subprocesses started, in order. *)
Definition subprocesses (tr : list Event) : list (string * list string) :=
  omap (λ e, match e with EvRun name args => Some (name, args) | _ => None end) tr.

(** The executables looked up on the search path, in order. *)
Definition toolChecks (tr : list Event) : list string :=
  omap (λ e, match e with EvLookPath file => Some file | _ => None end) tr.

(** The temporary directories asked for. *)
Definition workspaces (tr : list Event) : list string :=
  omap (λ e, match e with EvMkdirTemp _ pattern => Some pattern | _ => None end) tr.

(** The paths looked up with [os.Stat]. *)
Definition lookups (tr : list Event) : list string :=
  omap (λ e, match e with EvStat path => Some path | _ => None end) tr.

(** A request with the given query parameters. *)
Definition request (params : list (string * string)) : http.Request :=
  {| http.query := list_to_map (prod_map id (λ v, [v]) <$> params) |}.

(** ** Folded stacks *)

Definition isDigit (c : Ascii.ascii) : bool :=
  match strconv.digit c with Some _ => true | None => false end.

Fixpoint allDigits (s : string) : bool :=
  match s with
  | EmptyString => true
  | String c s' => isDigit c && allDigits s'
  end.

(** Frames separated by [;], none of them empty, all on one line. *)
Fixpoint framesOk (s : string) (inFrame : bool) : bool :=
  match s with
  | EmptyString => inFrame
  | String c s' =>
      if Ascii.eqb c ";"%char then inFrame && framesOk s' false
      else if Ascii.eqb c (Ascii.ascii_of_nat 10) then false
      else framesOk s' true
  end.

(** The text before and after the last blank. *)
Fixpoint splitLastBlank (s : string) : option (string * string) :=
  match s with
  | EmptyString => None
  | String c s' =>
      match splitLastBlank s' with
      | Some (a, b) => Some (String c a, b)
      | None => if Ascii.eqb c " "%char then Some (EmptyString, s') else None
      end
  end.

(** A folded-stack line, [frame;frame;...;frame COUNT], as flame graph
    tools read it. *)
Definition foldedLine (l : string) : bool :=
  match splitLastBlank l with
  | Some (stack, count) =>
      framesOk stack false && negb (String.eqb count "") && allDigits count
  | None => false
  end.

(** ** Sessions *)

(** A request that is not in test mode and passes every check of
    [runProfile]: both parameters present, a duration [dur] within 1..300,
    and a pid that [validatePID] accepts. *)
Definition validated (env : World) (files : FS) (r : http.Request) (dur : Z) : Prop :=
  let pid := http.Get (http.query r) "pid" in
  pid ≠ "" ∧
  strconv.Atoi (http.Get (http.query r) "seconds") = Ok dur ∧
  (1 ≤ dur ≤ 300)%Z ∧
  http.Get (http.query r) "test" ≠ "true" ∧
  (validatePID env pid (start files)).1 = None.

(** Both tools of the binary pipeline are on the search path. *)
Definition toolsFound (env : World) : Prop :=
  (∃ p, look_path env "perf" = Ok p) ∧ (∃ p, look_path env "pprof" = Ok p).

(** The directory [os.MkdirTemp] makes for a session. *)
Definition workspace (env : World) : string :=
  joinPath (tmp_root env) ("bcc-exporter-" +:+ pretty (temp_random env)).

(** The capture stage of a session: what [perf record] does when it is run
    in the fresh workspace. *)
Definition capture (env : World) (files : FS) (pid : string) (dur : Z) : RunOutcome :=
  run_cmd env "perf"
    ["record"; "-g"; "--pid"; pid; "-F"; "999"; "-o";
     filepath_Join (workspace env) "perf.data"; "--"; "sleep"; strconv.Itoa dur]
    (<[workspace env := Dir 4096]> files).

(** The text stage: what the BCC profiler does when it is run. *)
Definition profiler (env : World) (files : FS) (pid : string) (dur : Z) : RunOutcome :=
  run_cmd env "sudo"
    ["profile-bpfcc"; "-p"; pid; "-F"; "999"; "-f"; strconv.Itoa dur] files.

(** The state after [validatePID] has accepted a pid: one lookup made,
    nothing written. *)
Definition checked (files : FS) (pid : string) : State :=
  {| fs := files; w := http.NewRecorder; trace := [EvStat ("/proc/" +:+ pid)];
     deferred := [] |}.

(** A computation that leaves what was deferred and what was traced in
    place, adding to both at most. *)
Definition extends {A : Type} (m : M A) : Prop :=
  ∀ st, ∃ ds evs,
    deferred (m st).2 = ds ++ deferred st ∧ trace (m st).2 = trace st ++ evs.

(** ** Causes of rejection *)

(** The three reasons for which a duration is turned down. *)
Inductive Rejection : Type :=
| Missing
| NotANumber
| OutOfRange.

(** Why a [seconds] value is turned down, if it is. *)
Definition rejection (seconds : string) : option Rejection :=
  if String.eqb seconds "" then Some Missing
  else match strconv.Atoi seconds with
       | Err _ => Some NotANumber
       | Ok n => if bool_decide (1 ≤ n ≤ 300)%Z then None else Some OutOfRange
       end.

(** A non-negative integer as it is written: one or more decimal digits. *)
Definition nonNegativeInteger (s : string) : bool :=
  negb (String.eqb s "") && allDigits s.

(** A sign, [-] or [+], followed by one or more decimal digits. *)
Definition signedDigits (s : string) : bool :=
  match s with
  | String c r =>
      (Ascii.eqb c "-"%char || Ascii.eqb c "+"%char) && nonNegativeInteger r
  | EmptyString => false
  end.

(** ** Example environments *)

(** A process table with the init process only. *)
Definition procs : FS := {[ "/proc/1" := Dir 0 ]}.

(** A machine on which every tool is installed and does its work: [perf]
    records samples, [pprof] converts them, the BCC profiler prints one
    folded stack. *)
Definition working_run (name : string) (args : list string) (files : FS) : RunOutcome :=
  if String.eqb name "perf" then
    {| run_err := None; run_stdout := ""; run_stderr := "";
       run_fs := <["/tmp/bcc-exporter-42/perf.data" := File "samples"]> files |}
  else if String.eqb name "pprof" then
    {| run_err := None; run_stdout := ""; run_stderr := "";
       run_fs := <["/tmp/bcc-exporter-42/profile.pb.gz" := File "PROFILE"]> files |}
  else
    {| run_err := None; run_stdout := "redis-server;main;aeMain 7" +:+ LF;
       run_stderr := ""; run_fs := files |}.

Definition working : World :=
  {| tmp_root := "/tmp"; temp_random := 42; mkdir_fault := None;
     stat_fault := λ _, None; look_path := λ f, Ok ("/usr/bin/" +:+ f);
     run_cmd := working_run; open_fault := λ _, None; read_fault := λ _, None;
     remove_fault := λ _ _, None |}.

(** The same machine, on which [perf] is not allowed to sample. *)
Definition denied : World :=
  {| tmp_root := "/tmp"; temp_random := 42; mkdir_fault := None;
     stat_fault := λ _, None; look_path := λ f, Ok ("/usr/bin/" +:+ f);
     run_cmd := λ _ _ files,
       {| run_err := Some "exit status 255"; run_stdout := "";
          run_stderr := "Error: Permission denied" +:+ LF; run_fs := files |};
     open_fault := λ _, None; read_fault := λ _, None;
     remove_fault := λ _ _, None |}.

(** The same machine, profiling a process that never runs: [perf] exits
    with status zero and leaves an empty [perf.data]. *)
Definition idle : World :=
  {| tmp_root := "/tmp"; temp_random := 42; mkdir_fault := None;
     stat_fault := λ _, None; look_path := λ f, Ok ("/usr/bin/" +:+ f);
     run_cmd := λ _ _ files,
       {| run_err := None; run_stdout := ""; run_stderr := "";
          run_fs := <["/tmp/bcc-exporter-42/perf.data" := File ""]> files |};
     open_fault := λ _, None; read_fault := λ _, None;
     remove_fault := λ _ _, None |}.

(** A machine without the BCC tools: [sudo] cannot start the profiler. *)
Definition bare : World :=
  {| tmp_root := "/tmp"; temp_random := 42; mkdir_fault := None;
     stat_fault := λ _, None;
     look_path := λ f, Err ("exec: " +:+ f +:+ ": executable file not found in $PATH");
     run_cmd := λ _ _ files,
       {| run_err := Some "exit status 1"; run_stdout := "";
          run_stderr := "sudo: profile-bpfcc: command not found" +:+ LF;
          run_fs := files |};
     open_fault := λ _, None; read_fault := λ _, None;
     remove_fault := λ _ _, None |}.

(** A working machine whose temporary directory has turned read-only by the
    time the session ends: [os.RemoveAll] can unlink nothing and says so. *)
Definition readOnly : World :=
  {| tmp_root := "/tmp"; temp_random := 42; mkdir_fault := None;
     stat_fault := λ _, None; look_path := λ f, Ok ("/usr/bin/" +:+ f);
     run_cmd := working_run; open_fault := λ _, None; read_fault := λ _, None;
     remove_fault := λ path files,
       Some (files, "unlinkat " +:+ path +:+ ": read-only file system") |}.

(** A machine with both troubles: [perf] is not allowed to sample, and
    nothing can be unlinked. *)
Definition deniedReadOnly : World :=
  {| tmp_root := "/tmp"; temp_random := 42; mkdir_fault := None;
     stat_fault := λ _, None; look_path := λ f, Ok ("/usr/bin/" +:+ f);
     run_cmd := run_cmd denied; open_fault := λ _, None; read_fault := λ _, None;
     remove_fault := remove_fault readOnly |}.

(** ** Basic authentication *)

(** A handler, Go's [http.HandlerFunc]. *)
Definition Handler : Type := http.Request → M unit.

(** The double quote. *)
Definition DQUOTE : string := String (Ascii.ascii_of_nat 34) EmptyString.

(** [subtle.ConstantTimeCompare(x, y)]: 1 when the two byte strings are
    the same, 0 when they are not. *)
Definition subtle_ConstantTimeCompare (x y : string) : Z :=
  if String.eqb x y then 1%Z else 0%Z.

Section Auth.

Variable env : World.

(** [r.BasicAuth()]: the user name, the password, and whether the request
    carries them at all.  How they are read off the [Authorization] header
    is the library's business. *)
Variable BasicAuth : http.Request → string * string * bool.

(** [basicAuth] wraps a handler with basic authentication. *)
Definition basicAuth (handler : Handler) (password : string) : Handler :=
  λ r,
    let '(user, pass, ok) := BasicAuth r in
    if negb ok || negb (String.eqb user "admin")
       || negb (Z.eqb (subtle_ConstantTimeCompare pass password) 1)
    then
      respond (http.SetHeader "WWW-Authenticate"
                 ("Basic realm=" +:+ DQUOTE +:+ "bcc-exporter" +:+ DQUOTE));;
      respond (http.Error "Unauthorized" http.StatusUnauthorized)
    else handler r.

(** What [main] registers with [http.HandleFunc], for the password given on
    the command line. *)
Definition routes (password : string) : list (string * Handler) :=
  if negb (String.eqb password "") then
    [("/debug/pprof/profile", basicAuth (handlePprof env) password);
     ("/debug/folded/profile", basicAuth (handleFolded env) password)]
  else
    [("/debug/pprof/profile", handlePprof env);
     ("/debug/folded/profile", handleFolded env)].

End Auth.

(** ** The stages of a binary session *)

Definition perfDataPath (env : World) : string :=
  filepath_Join (workspace env) "perf.data".

Definition pprofPath (env : World) : string :=
  filepath_Join (workspace env) "profile.pb.gz".

(** The conversion stage: what [pprof] does when it is run on what the
    capture left. *)
Definition conversion (env : World) (files : FS) (pid : string) (dur : Z) : RunOutcome :=
  run_cmd env "pprof" ["-proto"; "-output"; pprofPath env; perfDataPath env]
    (run_fs (capture env files pid dur)).

(** The session got its workspace and [perf record] exited with status
    zero. *)
Definition recorded (env : World) (files : FS) (pid : string) (dur : Z) : Prop :=
  toolsFound env ∧ mkdir_fault env = None ∧
  run_err (capture env files pid dur) = None.

(** ... and left a [perf.data] that is not empty. *)
Definition sampled (env : World) (files : FS) (pid : string) (dur : Z) : Prop :=
  recorded env files pid dur ∧
  stat_fault env (perfDataPath env) = None ∧
  ∃ n, run_fs (capture env files pid dur) !! perfDataPath env = Some n ∧
       nodeSize n ≠ 0%Z.

(** ... and [pprof] exited with status zero and left the profile
    [content], which is not empty. *)
Definition converted (env : World) (files : FS) (pid : string) (dur : Z)
    (content : string) : Prop :=
  sampled env files pid dur ∧
  run_err (conversion env files pid dur) = None ∧
  stat_fault env (pprofPath env) = None ∧
  run_fs (conversion env files pid dur) !! pprofPath env = Some (File content) ∧
  content ≠ "".

(** What [os.Stat] answers for a path on a file system. *)
Definition statResult (env : World) (files : FS) (path : string) : StatResult :=
  match stat_fault env path with
  | Some e => StatFail e
  | None =>
      match files !! path with
      | None => StatNotExist
      | Some n => StatInfo (nodeSize n)
      end
  end.

(** ** What a session may do *)

(** The three commands of the exporter, for a pid and a duration. *)
Definition commands (env : World) (pid : string) (dur : Z) : list (string * list string) :=
  [("perf", ["record"; "-g"; "--pid"; pid; "-F"; "999"; "-o"; perfDataPath env;
             "--"; "sleep"; strconv.Itoa dur]);
   ("pprof", ["-proto"; "-output"; pprofPath env; perfDataPath env]);
   ("sudo", ["profile-bpfcc"; "-p"; pid; "-F"; "999"; "-f"; strconv.Itoa dur])].

(** The calls a request for [pid] and [dur] is entitled to: lookups of its
    process and of its own two files, the two tool checks, its workspace,
    the three commands, and the removal of its workspace. *)
Definition permitted (env : World) (pid : string) (dur : Z) (e : Event) : Prop :=
  match e with
  | EvStat path =>
      path = "/proc/" +:+ pid ∨ path = perfDataPath env ∨ path = pprofPath env
  | EvLookPath file => file = "perf" ∨ file = "pprof"
  | EvMkdirTemp dir pattern => dir = "" ∧ pattern = "bcc-exporter-"
  | EvRun name args => (name, args) ∈ commands env pid dur
  | EvOpen path | EvRead path | EvClose path => path = pprofPath env
  | EvRemoveAll path => path = workspace env
  | EvLog _ => True
  end.

(** The statuses the handlers answer with. *)
Definition knownStatus (wr : http.ResponseWriter) : Prop :=
  http.code wr = http.StatusOK ∨ http.code wr = http.StatusBadRequest ∨
  http.code wr = http.StatusForbidden ∨
  http.code wr = http.StatusInternalServerError.

(** The call a deferred entry will make. *)
Definition eventOf (d : Deferred) : Event :=
  match d with
  | DeferRemoveAll path => EvRemoveAll path
  | DeferClose path => EvClose path
  end.

(** *** Invariants, Hoare style *)

Section Discipline.

Variable Q : http.ResponseWriter → Prop.
Variable E : Event → Prop.

(** The response is as [Q] wants it, and every call made or deferred so far
    is one [E] allows. *)
Definition disciplined (st : State) : Prop :=
  Q (w st) ∧ Forall E (trace st) ∧ Forall (λ d, E (eventOf d)) (deferred st).

(** [m] keeps the discipline and returns a value that satisfies [R]. *)
Definition hoare {A : Type} (m : M A) (R : A → Prop) : Prop :=
  ∀ st, disciplined st → disciplined (m st).2 ∧ R (m st).1.

End Discipline.

(** ** The earlier revision of [main.go] *)

Module Legacy.

Section Handlers.

Variable env : World.

(** [runProfile] as it was before the [perf] pipeline: one BCC run for both
    formats, no look at [/proc]. *)
Definition runProfile (r : http.Request) (format : string) : M unit :=
  let pid := http.Get (http.query r) "pid" in
  let seconds := http.Get (http.query r) "seconds" in
  let testMode := String.eqb (http.Get (http.query r) "test") "true" in
  if String.eqb pid "" || String.eqb seconds "" then
    respond (http.Error "Missing pid or seconds" http.StatusBadRequest)
  else
  match strconv.Atoi seconds with
  | Err _ => respond (http.Error "Invalid seconds" http.StatusBadRequest)
  | Ok dur =>
  if bool_decide (dur ≤ 0)%Z || bool_decide (dur > 300)%Z then
    respond (http.Error "Invalid seconds" http.StatusBadRequest)
  else
  if testMode then
    let mockData := generateMockProfile pid dur in
    (if String.eqb format "pprof" then
       respond (http.SetHeader "Content-Type" "application/octet-stream")
     else
       respond (http.SetHeader "Content-Type" "text/plain"));;
    respond (http.Write mockData)
  else
  let args := ["profile-bpfcc"; "-p"; pid; "-f"; strconv.Itoa dur] in
  log_Printf ("Running command: sudo " +:+ strings.Join args " ");;
  cmd ← exec_Run env "sudo" args;
  match run_err cmd with
  | Some e =>
      log_Printf ("Command failed: " +:+ e);;
      log_Printf ("Stderr: " +:+ run_stderr cmd);;
      respond (http.Error ("Profiler failed: " +:+ e +:+ LF +:+ "Stderr: " +:+
                           run_stderr cmd)
                 http.StatusInternalServerError)
  | None =>
      (if String.eqb format "pprof" then
         respond (http.SetHeader "Content-Type" "application/octet-stream")
       else
         respond (http.SetHeader "Content-Type" "text/plain"));;
      respond (http.Write (run_stdout cmd))
  end
  end.

Definition handlePprof (r : http.Request) : M unit := runProfile r "pprof".

Definition handleFolded (r : http.Request) : M unit := runProfile r "folded".

End Handlers.

End Legacy.

(** ** More example environments *)

(** [perf] works; [pprof] finds nothing to convert. *)
Definition unconverted : World :=
  {| tmp_root := "/tmp"; temp_random := 42; mkdir_fault := None;
     stat_fault := λ _, None; look_path := λ f, Ok ("/usr/bin/" +:+ f);
     run_cmd := λ name _ files,
       if String.eqb name "perf" then
         {| run_err := None; run_stdout := ""; run_stderr := "";
            run_fs := <["/tmp/bcc-exporter-42/perf.data" := File "samples"]> files |}
       else
         {| run_err := Some "exit status 2"; run_stdout := "";
            run_stderr := "pprof: profile has no samples" +:+ LF; run_fs := files |};
     open_fault := λ _, None; read_fault := λ _, None;
     remove_fault := λ _ _, None |}.

(** Every tool exits with status zero and writes nothing. *)
Definition silent : World :=
  {| tmp_root := "/tmp"; temp_random := 42; mkdir_fault := None;
     stat_fault := λ _, None; look_path := λ f, Ok ("/usr/bin/" +:+ f);
     run_cmd := λ _ _ files,
       {| run_err := None; run_stdout := ""; run_stderr := ""; run_fs := files |};
     open_fault := λ _, None; read_fault := λ _, None;
     remove_fault := λ _ _, None |}.

(** [perf] works; [pprof] exits with status zero and writes nothing. *)
Definition halfway : World :=
  {| tmp_root := "/tmp"; temp_random := 42; mkdir_fault := None;
     stat_fault := λ _, None; look_path := λ f, Ok ("/usr/bin/" +:+ f);
     run_cmd := λ name _ files,
       if String.eqb name "perf" then
         {| run_err := None; run_stdout := ""; run_stderr := "";
            run_fs := <["/tmp/bcc-exporter-42/perf.data" := File "samples"]> files |}
       else
         {| run_err := None; run_stdout := ""; run_stderr := ""; run_fs := files |};
     open_fault := λ _, None; read_fault := λ _, None;
     remove_fault := λ _ _, None |}.

(** No room for a temporary directory. *)
Definition cramped : World :=
  {| tmp_root := "/tmp"; temp_random := 42;
     mkdir_fault := Some "mkdir /tmp/bcc-exporter-42: no space left on device";
     stat_fault := λ _, None; look_path := λ f, Ok ("/usr/bin/" +:+ f);
     run_cmd := working_run; open_fault := λ _, None; read_fault := λ _, None;
     remove_fault := λ _ _, None |}.

(** [perf] is installed, [pprof] is not. *)
Definition halfInstalled : World :=
  {| tmp_root := "/tmp"; temp_random := 42; mkdir_fault := None;
     stat_fault := λ _, None;
     look_path := λ f,
       if String.eqb f "perf" then Ok "/usr/bin/perf"
       else Err ("exec: " +:+ f +:+ ": executable file not found in $PATH");
     run_cmd := working_run; open_fault := λ _, None; read_fault := λ _, None;
     remove_fault := λ _ _, None |}.

(** The profile is written but cannot be opened. *)
Definition locked : World :=
  {| tmp_root := "/tmp"; temp_random := 42; mkdir_fault := None;
     stat_fault := λ _, None; look_path := λ f, Ok ("/usr/bin/" +:+ f);
     run_cmd := working_run;
     open_fault := λ path, Some ("open " +:+ path +:+ ": permission denied");
     read_fault := λ _, None;
     remove_fault := λ _ _, None |}.

(** Reading the profile breaks off after three bytes. *)
Definition flaky : World :=
  {| tmp_root := "/tmp"; temp_random := 42; mkdir_fault := None;
     stat_fault := λ _, None; look_path := λ f, Ok ("/usr/bin/" +:+ f);
     run_cmd := working_run; open_fault := λ _, None;
     read_fault := λ _, Some (3, "unexpected EOF");
     remove_fault := λ _ _, None |}.

(** Requests that carry the right credentials, the wrong password, none. *)
Definition asAdmin : http.Request → string * string * bool :=
  λ _, ("admin", "testpass", true).

Definition wrongPassword : http.Request → string * string * bool :=
  λ _, ("admin", "wrong", true).

Definition anonymous : http.Request → string * string * bool :=
  λ _, ("", "", false).

(** ** Properties *)

Section Basics.

Lemma eqb_false_iff (a b : string) : String.eqb a b = false ↔ a ≠ b.
Proof. destruct (String.eqb_spec a b); split; congruence. Qed.

Lemma status_Error msg c wr :
  http.wroteHeader wr = false → http.code (http.Error msg c wr) = c.
Proof. destruct wr as [h [] c0 b]; [discriminate | reflexivity]. Qed.

Lemma body_Error msg c wr :
  http.body (http.Error msg c wr) = http.body wr +:+ msg +:+ LF.
Proof.
  destruct wr as [h [] c0 b]; reflexivity.
Qed.

Lemma append_cons (x : Ascii.ascii) (a b : string) :
  String x a +:+ b = String x (a +:+ b).
Proof. reflexivity. Qed.

Lemma append_assoc (a b c : string) : (a +:+ b) +:+ c = a +:+ b +:+ c.
Proof.
  induction a as [|x a IH]; [reflexivity|].
  rewrite !append_cons. by f_equal.
Qed.

Lemma append_empty_r (a b : string) : a +:+ b = "" → b = "".
Proof. destruct a; [tauto | discriminate]. Qed.

Lemma HasPrefix_app (p rest : string) : strings.HasPrefix (p +:+ rest) p = true.
Proof.
  induction p as [|c p IH]; [reflexivity|].
  rewrite append_cons. simpl. by rewrite Ascii.eqb_refl.
Qed.

Lemma Contains_unfold (s sub : string) :
  strings.Contains s sub =
  if strings.HasPrefix s sub then true
  else match s with
       | EmptyString => false
       | String _ s' => strings.Contains s' sub
       end.
Proof. destruct s; reflexivity. Qed.

Lemma Contains_here (sub rest : string) : strings.Contains (sub +:+ rest) sub = true.
Proof. by rewrite Contains_unfold, HasPrefix_app. Qed.

Lemma Contains_later (pre s sub : string) :
  strings.Contains s sub = true → strings.Contains (pre +:+ s) sub = true.
Proof.
  intros H. induction pre as [|c pre IH]; [exact H|].
  rewrite append_cons, Contains_unfold.
  destruct (strings.HasPrefix (String c (pre +:+ s)) sub); [reflexivity | exact IH].
Qed.

(** The reading of [strings.Contains] used throughout: a text contains
    whatever stands between a prefix and a suffix of it. *)
Lemma Contains_intro (pre sub suf : string) :
  strings.Contains (pre +:+ sub +:+ suf) sub = true.
Proof. apply Contains_later, Contains_here. Qed.

Lemma reply_Error (files : FS) msg c tr ds :
  reply {| fs := files; w := http.Error msg c http.NewRecorder; trace := tr;
           deferred := ds |} = msg +:+ LF.
Proof. reflexivity. Qed.

End Basics.

(** *** The session life cycle *)

Lemma joinPath_nonempty (base name : string) : name ≠ "" → joinPath base name ≠ "".
Proof.
  intros Hn E. unfold joinPath in E.
  destruct (strings.HasPrefix (String.rev base) "/").
  - by apply append_empty_r in E.
  - by apply append_empty_r, append_empty_r in E.
Qed.

Lemma workspace_nonempty (env : World) : String.eqb (workspace env) "" = false.
Proof. apply eqb_false_iff, joinPath_nonempty. discriminate. Qed.

Lemma removed_absent (files : FS) (dir p : string) :
  under dir p = true →
  filter (λ kv : string * node, under dir kv.1 = false) files !! p = None.
Proof.
  intros Hu. apply map_lookup_filter_None. right. intros x _. simpl. congruence.
Qed.

(** The digit loop stops at the first character that is not a digit. *)
Lemma digits_None (s : string) :
  allDigits s = false → ∀ acc, strconv.digits s acc = None.
Proof.
  induction s as [|c s IH]; [discriminate|].
  cbn [allDigits strconv.digits]. unfold isDigit. intros H acc.
  destruct (strconv.digit c) as [d|]; [|reflexivity].
  apply IH. exact H.
Qed.

Lemma unsigned_None (s : string) :
  nonNegativeInteger s = false → strconv.unsigned s = None.
Proof.
  unfold nonNegativeInteger. destruct s as [|c s]; [reflexivity|].
  cbn [String.eqb negb andb]. intros H. unfold strconv.unsigned.
  by apply digits_None.
Qed.

(** What [strconv.Atoi] makes of a string that is neither digits nor a sign
    followed by digits: a syntax error. *)
Lemma Atoi_malformed (s : string) :
  nonNegativeInteger s = false → signedDigits s = false →
  strconv.Atoi s = Err strconv.ErrSyntax.
Proof.
  intros Hnat Hsigned. unfold strconv.Atoi.
  destruct s as [|c r]; [reflexivity|].
  cbn [signedDigits] in Hsigned.
  destruct (Ascii.eqb c "-"%char);
    [cbn [orb andb] in Hsigned; by rewrite (unsigned_None _ Hsigned)|].
  destruct (Ascii.eqb c "+"%char);
    [cbn [orb andb] in Hsigned; by rewrite (unsigned_None _ Hsigned)|].
  by rewrite (unsigned_None _ Hnat).
Qed.

Lemma validatePID_ok (env : World) (files : FS) (pid : string) :
  (validatePID env pid (start files)).1 = None →
  validatePID env pid (start files) = (None, checked files pid).
Proof.
  unfold validatePID. destruct (strconv.Atoi pid); [|discriminate].
  unfold os_Stat, mbind, M_bind, mret, M_ret, emit, get_fs. simpl.
  destruct (stat_fault env _); [discriminate|].
  destruct (files !! _); simpl; intros; try discriminate; reflexivity.
Qed.

Lemma runProfile_validated (env : World) (files : FS) (r : http.Request)
    (dur : Z) (format : string) :
  validated env files r dur →
  runProfile env r format (start files) =
  (if String.eqb format "pprof"
   then runPerfProfile env (http.Get (http.query r) "pid") dur
   else runBCCProfile env (http.Get (http.query r) "pid") dur)
    (checked files (http.Get (http.query r) "pid")).
Proof.
  intros (Hpid & Hsec & Hdur & Htest & Hv).
  assert (Hseconds : http.Get (http.query r) "seconds" ≠ "").
  { intros E. rewrite E in Hsec. discriminate. }
  assert (Hrange : bool_decide (dur ≤ 0)%Z || bool_decide (dur > 300)%Z = false).
  { apply orb_false_intro; apply bool_decide_eq_false; lia. }
  apply validatePID_ok in Hv.
  unfold runProfile.
  apply eqb_false_iff in Hpid, Hseconds, Htest.
  rewrite Hpid, Hseconds, Hsec, Hrange, Htest. simpl.
  unfold mbind at 1, M_bind at 1. rewrite Hv.
  by destruct (String.eqb format "pprof").
Qed.

Lemma extends_ret {A} (a : A) : extends (mret a).
Proof. intros st. exists [], []. by rewrite app_nil_r. Qed.

Lemma extends_bind {A B} (m : M A) (f : A → M B) :
  extends m → (∀ a, extends (f a)) → extends (m ≫= f).
Proof.
  intros Hm Hf st. unfold mbind, M_bind.
  destruct (Hm st) as (ds1 & evs1 & Hd1 & Ht1).
  destruct (m st) as [a st1]. simpl in *.
  destruct (Hf a st1) as (ds2 & evs2 & Hd2 & Ht2).
  exists (ds2 ++ ds1), (evs1 ++ evs2).
  rewrite Hd2, Ht2, Hd1, Ht1. by rewrite !app_assoc.
Qed.

Lemma extends_emit (e : Event) : extends (emit e).
Proof. intros st. by exists [], [e]. Qed.

Lemma extends_respond f : extends (respond f).
Proof. intros st. exists [], []. by rewrite app_nil_r. Qed.

Lemma extends_set_fs f : extends (set_fs f).
Proof. intros st. exists [], []. by rewrite app_nil_r. Qed.

Lemma extends_get_fs : extends get_fs.
Proof. intros st. exists [], []. by rewrite app_nil_r. Qed.

Lemma extends_defer (d : Deferred) : extends (defer d).
Proof. intros st. exists [d], []. by rewrite app_nil_r. Qed.

Create HintDb extends.
#[local] Hint Resolve extends_ret extends_emit extends_respond extends_set_fs
  extends_get_fs extends_defer : extends.

(** Walks through a computation, one bind or one branch at a time. *)
Ltac extends_step :=
  match goal with
  | |- extends (mbind _ _) => apply extends_bind; [|intros ?]
  | |- extends (match ?x with _ => _ end) => destruct x
  | |- extends (let '(_, _) := ?x in _) => destruct x
  | |- extends _ => solve [auto with extends]
  end.

Ltac extends_auto := repeat extends_step.

Lemma extends_os_Stat env path : extends (os_Stat env path).
Proof. unfold os_Stat. extends_auto. Qed.

Lemma extends_exec_Run env name args : extends (exec_Run env name args).
Proof. unfold exec_Run. extends_auto. Qed.

Lemma extends_os_Open env path : extends (os_Open env path).
Proof. unfold os_Open. extends_auto. Qed.

Lemma extends_io_Copy env f : extends (io_Copy env f).
Proof. unfold io_Copy. extends_auto. Qed.

Lemma extends_os_MkdirTemp env dir pattern : extends (os_MkdirTemp env dir pattern).
Proof. unfold os_MkdirTemp. extends_auto. Qed.

#[local] Hint Resolve extends_os_Stat extends_exec_Run extends_os_Open
  extends_io_Copy extends_os_MkdirTemp : extends.

Lemma run_all_cons (env : World) (d : Deferred) (ds : list Deferred) (st : State) :
  run_all env (d :: ds) st = run_all env ds (run_deferred env d st).2.
Proof. simpl. unfold mbind, M_bind. by destruct (run_deferred env d st). Qed.

(** The one deferred removal: one call, and the file system [os.RemoveAll]
    leaves. *)
Lemma run_removal (env : World) (dir : string) (st : State) :
  String.eqb dir "" = false →
  run_deferred env (DeferRemoveAll dir) st =
  (tt, {| fs := removed env dir (fs st); w := w st;
          trace := trace st ++ [EvRemoveAll dir]; deferred := deferred st |}).
Proof.
  intros H. cbn [run_deferred].
  unfold os_RemoveAll, mbind, M_bind, mret, M_ret, emit, set_fs, get_fs. simpl.
  by rewrite H.
Qed.

Lemma run_deferred_trace (env : World) (d : Deferred) (st : State) :
  ∃ e, trace (run_deferred env d st).2 = trace st ++ [e].
Proof.
  destruct d as [path|path]; simpl.
  - unfold os_RemoveAll, mbind, M_bind, mret, M_ret, emit, set_fs, get_fs. simpl.
    destruct (String.eqb path ""); by eexists.
  - by eexists.
Qed.

(** A removal that succeeds leaves nothing at or below its path. *)
Lemma removed_clean (env : World) (dir : string) (files : FS) :
  remove_fault env dir files = None →
  ∀ p, under dir p = true → removed env dir files !! p = None.
Proof. intros H p Hp. unfold removed. rewrite H. by apply removed_absent. Qed.

(** Whatever else was deferred, the removal registered first runs last: it
    closes the trace, and the file system is what it leaves. *)
Lemma run_all_last (env : World) (ds : list Deferred) (dir : string) (st : State) :
  String.eqb dir "" = false →
  (∃ before, fs (run_all env (ds ++ [DeferRemoveAll dir]) st).2 =
             removed env dir before) ∧
  (∃ evs, trace (run_all env (ds ++ [DeferRemoveAll dir]) st).2 =
          trace st ++ evs ++ [EvRemoveAll dir]).
Proof.
  intros Hdir. revert st. induction ds as [|d ds IH]; intros st.
  - cbn [app]. rewrite run_all_cons, (run_removal _ _ _ Hdir). cbn. split.
    + by eexists.
    + by exists [].
  - rewrite <- app_comm_cons, run_all_cons.
    destruct (IH (run_deferred env d st).2) as [Hfs [evs Htr]].
    split; [exact Hfs|].
    destruct (run_deferred_trace env d st) as [e He].
    exists (e :: evs). rewrite Htr, He. by rewrite <- app_assoc.
Qed.

Lemma bind_apply {A B} (m : M A) (f : A → M B) (st : State) :
  (m ≫= f) st = f (m st).1 (m st).2.
Proof. unfold mbind, M_bind. by destruct (m st). Qed.

Lemma func_apply (env : World) {A} (body : M A) (st : State) :
  func env body st =
  let r := body {| fs := fs st; w := w st; trace := trace st; deferred := [] |} in
  let r' := run_all env (deferred r.2) r.2 in
  (r.1, {| fs := fs r'.2; w := w r'.2; trace := trace r'.2;
           deferred := deferred st |}).
Proof.
  unfold func. destruct (body _) as [a st1]. simpl.
  by destruct (run_all env (deferred st1) st1).
Qed.

Lemma checkRequiredTools_found (env : World) (st : State) :
  toolsFound env →
  checkRequiredTools env st =
  (None, {| fs := fs st; w := w st;
            trace := (trace st ++ [EvLookPath "perf"]) ++ [EvLookPath "pprof"];
            deferred := deferred st |}).
Proof.
  intros [[p1 H1] [p2 H2]].
  unfold checkRequiredTools, exec_LookPath, mbind, M_bind, mret, M_ret, emit.
  simpl. rewrite H1. simpl. by rewrite H2.
Qed.

Lemma os_MkdirTemp_ok (env : World) (st : State) :
  mkdir_fault env = None →
  os_MkdirTemp env "" "bcc-exporter-" st =
  (Ok (workspace env),
   {| fs := <[workspace env := Dir 4096]> (fs st); w := w st;
      trace := trace st ++ [EvMkdirTemp "" "bcc-exporter-"];
      deferred := deferred st |}).
Proof.
  intros H. unfold os_MkdirTemp, mbind, M_bind, mret, M_ret, emit, set_fs.
  simpl. by rewrite H.
Qed.

Lemma extends_log msg : extends (log_Printf msg).
Proof. apply extends_emit. Qed.

#[local] Hint Resolve extends_log : extends.

(** Equations of the primitive calls. *)
Lemma log_Printf_apply msg st :
  log_Printf msg st =
  (tt, {| fs := fs st; w := w st; trace := trace st ++ [EvLog msg];
          deferred := deferred st |}).
Proof. reflexivity. Qed.

Lemma respond_apply f st :
  respond f st =
  (tt, {| fs := fs st; w := f (w st); trace := trace st; deferred := deferred st |}).
Proof. reflexivity. Qed.

Lemma exec_Run_apply env name args st :
  exec_Run env name args st =
  (run_cmd env name args (fs st),
   {| fs := run_fs (run_cmd env name args (fs st)); w := w st;
      trace := trace st ++ [EvRun name args]; deferred := deferred st |}).
Proof. reflexivity. Qed.

Lemma os_Stat_apply env path st :
  os_Stat env path st =
  (match stat_fault env path with
   | Some e => StatFail e
   | None =>
       match fs st !! path with
       | None => StatNotExist
       | Some n => StatInfo (nodeSize n)
       end
   end,
   {| fs := fs st; w := w st; trace := trace st ++ [EvStat path];
      deferred := deferred st |}).
Proof.
  unfold os_Stat, mbind, M_bind, mret, M_ret, emit, get_fs. simpl.
  destruct (stat_fault env path); [reflexivity|].
  by destruct (fs st !! path).
Qed.

Lemma run_all_removal (env : World) (dir : string) (st : State) :
  String.eqb dir "" = false →
  run_all env [DeferRemoveAll dir] st =
  (tt, {| fs := removed env dir (fs st);
          w := w st; trace := trace st ++ [EvRemoveAll dir];
          deferred := deferred st |}).
Proof. intros H. by rewrite run_all_cons, (run_removal _ _ _ H). Qed.

(** Enters a session: the tools are found and the workspace is made. *)
Ltac enter_session Htools Hmk :=
  unfold runPerfProfile; rewrite func_apply;
  rewrite bind_apply, (checkRequiredTools_found _ _ Htools); cbn [fst snd];
  rewrite bind_apply, (os_MkdirTemp_ok _ _ Hmk); cbn [fst snd];
  rewrite bind_apply; cbn [fst snd fs w trace deferred checked defer].

(** One more call of the handler. *)
Ltac step :=
  rewrite bind_apply;
  rewrite ?log_Printf_apply, ?exec_Run_apply, ?respond_apply, ?os_Stat_apply;
  cbn [fst snd fs w trace deferred].

(** A session that got its workspace ends, however it ends, by asking for
    its removal; the file system it leaves is the one that removal leaves. *)
Lemma session_cleanup (env : World) (files : FS) (pid : string) (dur : Z) :
  toolsFound env →
  mkdir_fault env = None →
  let st' := (runPerfProfile env pid dur (checked files pid)).2 in
  EvMkdirTemp "" "bcc-exporter-" ∈ trace st' ∧
  last (trace st') = Some (EvRemoveAll (workspace env)) ∧
  ∃ before, fs st' = removed env (workspace env) before.
Proof.
  intros Htools Hmk st'. subst st'. enter_session Htools Hmk.
  match goal with
  | |- context [run_all _ (deferred (?m ?s).2) _] =>
      assert (Hext : extends m) by extends_auto;
      destruct (Hext s) as (ds & evs & Hd & Ht); clear Hext;
      destruct (m s) as [a st1]
  end.
  cbn [fst snd fs w trace deferred] in *. rewrite Hd.
  destruct (run_all_last env ds (workspace env) st1 (workspace_nonempty env))
    as [Hfs [evs' Htr]].
  rewrite Htr, Ht. split; [|split].
  - rewrite !elem_of_app. left. left. right. apply list_elem_of_singleton. reflexivity.
  - by rewrite !app_assoc, last_snoc.
  - exact Hfs.
Qed.

(** What a failed capture is answered with. *)
Lemma capture_failed_reply
    (env : World) (files : FS) (pid : string) (dur : Z) (e : string) :
  toolsFound env →
  mkdir_fault env = None →
  run_err (capture env files pid dur) = Some e →
  let st' := (runPerfProfile env pid dur (checked files pid)).2 in
  let stderr := run_stderr (capture env files pid dur) in
  status st' =
    (if strings.Contains stderr "Permission denied" then http.StatusForbidden
     else if strings.Contains stderr "No such process" then http.StatusBadRequest
     else http.StatusInternalServerError) ∧
  reply st' =
    (if strings.Contains stderr "Permission denied" then
       "Permission denied: perf requires elevated privileges. Run with sudo or adjust perf_event_paranoid settings."
     else if strings.Contains stderr "No such process" then
       "Process with PID " +:+ pid +:+ " not found or exited during profiling"
     else "perf record failed: " +:+ e +:+ LF +:+ "Stderr: " +:+ stderr) +:+ LF ∧
  subprocesses (trace st') =
    [("perf", ["record"; "-g"; "--pid"; pid; "-F"; "999"; "-o";
               filepath_Join (workspace env) "perf.data"; "--"; "sleep";
               strconv.Itoa dur])] ∧
  fs st' = removed env (workspace env) (run_fs (capture env files pid dur)).
Proof.
  intros Htools Hmk Herr st' stderr. subst st' stderr.
  enter_session Htools Hmk. step. step.
  fold (capture env files pid dur). rewrite Herr.
  step. step.
  destruct (strings.Contains _ "Permission denied");
    [|destruct (strings.Contains _ "No such process")];
    rewrite respond_apply; cbn [fst snd fs w trace deferred];
    rewrite (run_all_removal _ _ _ (workspace_nonempty env));
    cbn [fst snd fs w trace deferred];
    repeat split; reflexivity.
Qed.

(** The text pipeline, start to end. *)
Lemma runBCCProfile_run (env : World) (files : FS) (pid : string) (dur : Z) :
  let args := ["profile-bpfcc"; "-p"; pid; "-F"; "999"; "-f"; strconv.Itoa dur] in
  let out := profiler env files pid dur in
  let ran := [EvStat ("/proc/" +:+ pid);
              EvLog ("Running command: sudo " +:+ strings.Join args " ");
              EvRun "sudo" args] in
  (runBCCProfile env pid dur (checked files pid)).2 =
  match run_err out with
  | Some e =>
      {| fs := run_fs out;
         w := http.Error ("Profiler failed: " +:+ e +:+ LF +:+ "Stderr: " +:+
                          run_stderr out)
                http.StatusInternalServerError http.NewRecorder;
         trace := ran ++ [EvLog ("Command failed: " +:+ e);
                          EvLog ("Stderr: " +:+ run_stderr out)];
         deferred := [] |}
  | None =>
      {| fs := run_fs out;
         w := http.Write (run_stdout out)
                (http.SetHeader "Content-Type" "text/plain" http.NewRecorder);
         trace := ran; deferred := [] |}
  end.
Proof.
  intros args out ran. unfold runBCCProfile, checked. step. step.
  fold (profiler env files pid dur). fold out.
  destruct (run_err out) as [e|]; repeat step; rewrite ?respond_apply; reflexivity.
Qed.

(** The binary pipeline on a machine without [perf]. *)
Lemma runPerfProfile_no_perf (env : World) (files : FS) (pid : string) (dur : Z)
    (e : string) :
  look_path env "perf" = Err e →
  (runPerfProfile env pid dur (checked files pid)).2 =
  {| fs := files;
     w := http.Error ("Required tools not available: perf tool not found: " +:+ e +:+
                      ". Install with: sudo apt-get install linux-perf")
            http.StatusInternalServerError http.NewRecorder;
     trace := [EvStat ("/proc/" +:+ pid); EvLookPath "perf"];
     deferred := [] |}.
Proof.
  intros H. unfold runPerfProfile. rewrite func_apply.
  unfold checkRequiredTools, exec_LookPath.
  unfold mbind, M_bind, mret, M_ret, emit. simpl. rewrite H. reflexivity.
Qed.

(** Deferred calls only add to the trace. *)
Lemma run_all_trace (env : World) (ds : list Deferred) (st : State) :
  ∃ evs, trace (run_all env ds st).2 = trace st ++ evs.
Proof.
  revert st. induction ds as [|d ds IH]; intros st.
  - exists []. by rewrite app_nil_r.
  - rewrite run_all_cons.
    destruct (IH (run_deferred env d st).2) as [evs Htr].
    destruct (run_deferred_trace env d st) as [e He].
    exists (e :: evs). rewrite Htr, He. by rewrite <- app_assoc.
Qed.

(** The first call of a function body stays the first call of the
    function. *)
Lemma func_bind_trace (env : World) {A B} (m : M A) (k : A → M B) (e : Event)
    (st : State) :
  (∀ st0, ∃ evs, trace (m st0).2 = trace st0 ++ e :: evs) →
  (∀ a, extends (k a)) →
  ∃ evs, trace (func env (m ≫= k) st).2 = trace st ++ e :: evs.
Proof.
  intros Hm Hk. rewrite func_apply, bind_apply. cbn [snd trace].
  set (st0 := {| fs := fs st; w := w st; trace := trace st; deferred := [] |}).
  destruct (Hm st0) as [evs1 H1].
  destruct (Hk (m st0).1 (m st0).2) as (ds & evs2 & _ & H2).
  destruct (run_all_trace env (deferred (k (m st0).1 (m st0).2).2)
              (k (m st0).1 (m st0).2).2) as [evs3 H3].
  exists (evs1 ++ evs2 ++ evs3). rewrite H3, H2, H1. subst st0. cbn [trace].
  by rewrite <- !app_assoc.
Qed.

(** The binary pipeline looks for [perf] before anything else. *)
Lemma runPerfProfile_checks_first (env : World) (pid : string) (dur : Z) (st : State) :
  ∃ evs, trace (runPerfProfile env pid dur st).2 = trace st ++ EvLookPath "perf" :: evs.
Proof.
  unfold runPerfProfile. apply func_bind_trace.
  - intros st0. unfold checkRequiredTools, exec_LookPath, mbind, M_bind, mret,
      M_ret, emit. simpl.
    destruct (look_path env "perf"); simpl; [|by eexists].
    destruct (look_path env "pprof"); simpl; rewrite <- app_assoc; by eexists.
  - intros a. extends_auto.
Qed.

(** *** The model at work *)

Example pprof_session :
  let st' := serve (handlePprof working (request [("pid", "1"); ("seconds", "5")])) procs in
  status st' = 200%Z ∧ reply st' = "PROFILE" ∧
  http.header (w st') !! "Content-Disposition" =
    Some ["attachment; filename=profile-1-5.pb.gz"] ∧
  subprocesses (trace st') =
    [("perf", ["record"; "-g"; "--pid"; "1"; "-F"; "999"; "-o";
               "/tmp/bcc-exporter-42/perf.data"; "--"; "sleep"; "5"]);
     ("pprof", ["-proto"; "-output"; "/tmp/bcc-exporter-42/profile.pb.gz";
                "/tmp/bcc-exporter-42/perf.data"])] ∧
  fs st' = procs.
Proof. vm_compute. repeat split; reflexivity. Qed.

Example unknown_process :
  let st' := serve (handlePprof working (request [("pid", "999999"); ("seconds", "5")])) procs in
  status st' = 400%Z ∧
  reply st' = "Invalid PID: process with PID 999999 does not exist" +:+ LF ∧
  trace st' = [EvStat "/proc/999999"].
Proof. vm_compute. repeat split; reflexivity. Qed.

Example atoi_examples :
  strconv.Atoi "300" = Ok 300%Z ∧ strconv.Atoi "+5" = Ok 5%Z ∧
  strconv.Atoi "-1" = Ok (-1)%Z ∧ strconv.Atoi "" = Err strconv.ErrSyntax ∧
  strconv.Atoi "5s" = Err strconv.ErrSyntax ∧
  strconv.Atoi "9223372036854775808" = Err strconv.ErrRange.
Proof. vm_compute. repeat split; reflexivity. Qed.

(** *** The handlers, property by property *)

(** C1. A request whose [seconds] value is absent, is not an integer, or is
    an integer outside 1..300 is answered with status 400, whatever the
    format selector and whether or not test mode is asked for; the handler
    makes no call at all (no subprocess, no [/proc] lookup, no tool check,
    no workspace) and leaves the file system as it was. *)
Theorem C1_bad_seconds_rejected
    (env : World) (files : FS) (r : http.Request) (format : string) :
  let seconds := http.Get (http.query r) "seconds" in
  seconds = "" ∨
  (∃ e, strconv.Atoi seconds = Err e) ∨
  (∃ n, strconv.Atoi seconds = Ok n ∧ (n < 1 ∨ 300 < n)%Z) →
  let st' := serve (runProfile env r format) files in
  status st' = http.StatusBadRequest ∧ trace st' = [] ∧ fs st' = files.
Proof.
  intros seconds Hbad st'. subst st'. unfold serve, runProfile.
  fold seconds.
  destruct (String.eqb (http.Get (http.query r) "pid") "" || String.eqb seconds "")
    eqn:Hmiss; [by repeat split|].
  destruct Hbad as [Hs | [[e He] | [n [Hn Hr]]]].
  - rewrite Hs in Hmiss. simpl in Hmiss. by rewrite orb_true_r in Hmiss.
  - rewrite He. by repeat split.
  - rewrite Hn.
    destruct (bool_decide (n ≤ 0)%Z || bool_decide (n > 300)%Z) eqn:Hrng;
      [by repeat split|].
    apply orb_false_elim in Hrng as [H1 H2].
    apply bool_decide_eq_false in H1, H2. lia.
Qed.

Lemma C1_bad_seconds_rejected_witness :
  (http.Get (http.query (request [("pid", "1234"); ("seconds", "500")])) "seconds" = "" ∨
   (∃ e, strconv.Atoi (http.Get (http.query (request [("pid", "1234"); ("seconds", "500")])) "seconds") = Err e) ∨
   (∃ n, strconv.Atoi (http.Get (http.query (request [("pid", "1234"); ("seconds", "500")])) "seconds") = Ok n ∧
         (n < 1 ∨ 300 < n)%Z)) ∧
  status (serve (runProfile working (request [("pid", "1234"); ("seconds", "500")]) "pprof") procs)
    = http.StatusBadRequest.
Proof.
  assert (H : ∃ n, strconv.Atoi (http.Get (http.query
                (request [("pid", "1234"); ("seconds", "500")])) "seconds") = Ok n ∧
              (n < 1 ∨ 300 < n)%Z).
  { exists 500%Z. split; [vm_compute; reflexivity | lia]. }
  split.
  - right. right. exact H.
  - exact (proj1 (C1_bad_seconds_rejected working procs
                    (request [("pid", "1234"); ("seconds", "500")]) "pprof"
                    (or_intror (or_intror H)))).
Defined.

(** C2, as the code has it.  Once a binary-format request has been given
    its workspace, the handler's last call, on whichever path it returns
    (success, a failed or empty capture, a failed or empty conversion, a
    profile that cannot be opened or streamed), is [os.RemoveAll] on that
    workspace, and the file system it returns with is the one that call
    leaves.  When the removal succeeds nothing is left at or below the
    directory; the call's error is dropped, so a removal that fails goes
    unnoticed and leaves what it could not remove. *)
Theorem C2_workspace_removed
    (env : World) (files : FS) (r : http.Request) (dur : Z) :
  validated env files r dur →
  toolsFound env →
  mkdir_fault env = None →
  let st' := serve (handlePprof env r) files in
  EvMkdirTemp "" "bcc-exporter-" ∈ trace st' ∧
  last (trace st') = Some (EvRemoveAll (workspace env)) ∧
  ∃ before : FS,
    fs st' = removed env (workspace env) before ∧
    (remove_fault env (workspace env) before = None →
     ∀ p, under (workspace env) p = true → fs st' !! p = None).
Proof.
  intros Hv Htools Hmk st'. subst st'.
  unfold serve, handlePprof. rewrite (runProfile_validated _ _ _ _ _ Hv).
  cbn [String.eqb Ascii.eqb Bool.eqb].
  destruct (session_cleanup env files (http.Get (http.query r) "pid") dur Htools Hmk)
    as (Hm & Hl & before & Hfs).
  split; [exact Hm|]. split; [exact Hl|].
  exists before. split; [exact Hfs|].
  intros Hok p Hp. rewrite Hfs. by apply removed_clean.
Qed.

Lemma C2_workspace_removed_witness :
  let r := request [("pid", "1"); ("seconds", "5")] in
  (validated working procs r 5 ∧ toolsFound working ∧ mkdir_fault working = None) ∧
  last (trace (serve (handlePprof working r) procs)) =
    Some (EvRemoveAll "/tmp/bcc-exporter-42") ∧
  fs (serve (handlePprof working r) procs) !! "/tmp/bcc-exporter-42/perf.data" = None.
Proof.
  intros r.
  assert (H1 : validated working procs r 5).
  { repeat split; try (vm_compute; reflexivity); try lia; vm_compute; discriminate. }
  assert (H2 : toolsFound working) by (split; eexists; reflexivity).
  assert (H3 : mkdir_fault working = None) by reflexivity.
  split; [exact (conj H1 (conj H2 H3))|].
  destruct (C2_workspace_removed working procs r 5 H1 H2 H3)
    as (_ & Hl & before & _ & Hfs).
  split; [exact Hl|].
  apply Hfs; reflexivity.
Defined.

(** C2, as claimed, fails: on a machine where nothing can be unlinked any
    more the request is served, [os.RemoveAll] is called last and fails,
    nobody looks at its error, and the workspace is still there, with the
    capture and the profile in it, when the handler has returned. *)
Lemma C2_counterexample :
  let r := request [("pid", "1"); ("seconds", "5")] in
  let st' := serve (handlePprof readOnly r) procs in
  (validated readOnly procs r 5 ∧ toolsFound readOnly ∧
   mkdir_fault readOnly = None) ∧
  status st' = http.StatusOK ∧
  last (trace st') = Some (EvRemoveAll "/tmp/bcc-exporter-42") ∧
  fs st' !! "/tmp/bcc-exporter-42" = Some (Dir 4096) ∧
  fs st' !! "/tmp/bcc-exporter-42/perf.data" = Some (File "samples") ∧
  fs st' !! "/tmp/bcc-exporter-42/profile.pb.gz" = Some (File "PROFILE").
Proof.
  intros r st'. subst r st'.
  split; [|repeat split; vm_compute; reflexivity].
  split; [|split; [split; eexists; reflexivity | reflexivity]].
  repeat split; try (vm_compute; reflexivity); try lia; vm_compute; discriminate.
Qed.

(** C3, as the code has it.  When the capture stage of a binary-format
    request fails, the answer follows its standard error: 403 if it contains
    [Permission denied], otherwise 400 if it contains [No such process],
    otherwise 500 with a body that carries the standard error as it was
    captured.  In all three cases the conversion is not started and the
    handler's last call is [os.RemoveAll] on the workspace, applied to the
    files the capture left: when that removal succeeds nothing is left at or
    below the directory; its error is dropped, so a removal that fails
    leaves what it could not remove. *)
Theorem C3_capture_failure_classified
    (env : World) (files : FS) (r : http.Request) (dur : Z) (e : string) :
  let pid := http.Get (http.query r) "pid" in
  validated env files r dur →
  toolsFound env →
  mkdir_fault env = None →
  run_err (capture env files pid dur) = Some e →
  let stderr := run_stderr (capture env files pid dur) in
  let st' := serve (handlePprof env r) files in
  status st' =
    (if strings.Contains stderr "Permission denied" then http.StatusForbidden
     else if strings.Contains stderr "No such process" then http.StatusBadRequest
     else http.StatusInternalServerError) ∧
  reply st' =
    (if strings.Contains stderr "Permission denied" then
       "Permission denied: perf requires elevated privileges. Run with sudo or adjust perf_event_paranoid settings."
     else if strings.Contains stderr "No such process" then
       "Process with PID " +:+ pid +:+ " not found or exited during profiling"
     else "perf record failed: " +:+ e +:+ LF +:+ "Stderr: " +:+ stderr) +:+ LF ∧
  strings.Contains stderr "Permission denied"
    || strings.Contains stderr "No such process"
    || strings.Contains (reply st') stderr = true ∧
  length (subprocesses (trace st')) = 1 ∧
  last (trace st') = Some (EvRemoveAll (workspace env)) ∧
  fs st' = removed env (workspace env) (run_fs (capture env files pid dur)) ∧
  (remove_fault env (workspace env) (run_fs (capture env files pid dur)) = None →
   ∀ p, under (workspace env) p = true → fs st' !! p = None).
Proof.
  intros pid Hv Htools Hmk Herr stderr st'. subst st'.
  unfold serve, handlePprof. rewrite (runProfile_validated _ _ _ _ _ Hv).
  cbn [String.eqb Ascii.eqb Bool.eqb]. fold pid.
  destruct (capture_failed_reply env files pid dur e Htools Hmk Herr)
    as (Hs & Hb & Hp & Hfs).
  destruct (session_cleanup env files pid dur Htools Hmk) as (_ & Hl & _).
  fold stderr in Hs, Hb.
  split; [exact Hs|]. split; [exact Hb|].
  split; [|split; [by rewrite Hp|split; [exact Hl|split; [exact Hfs|]]]];
    [|intros Hok p Hp'; rewrite Hfs; by apply removed_clean].
  rewrite Hb.
  destruct (strings.Contains stderr "Permission denied"); [reflexivity|].
  destruct (strings.Contains stderr "No such process"); [reflexivity|].
  cbn [orb].
  pose proof (Contains_intro ("perf record failed: " +:+ e +:+ LF +:+ "Stderr: ")
                stderr LF) as Hc.
  rewrite !append_assoc in Hc. rewrite !append_assoc. exact Hc.
Qed.

Lemma C3_capture_failure_classified_witness :
  let r := request [("pid", "1"); ("seconds", "5")] in
  (validated denied procs r 5 ∧ toolsFound denied ∧ mkdir_fault denied = None ∧
   run_err (capture denied procs "1" 5) = Some "exit status 255") ∧
  status (serve (handlePprof denied r) procs) = http.StatusForbidden ∧
  fs (serve (handlePprof denied r) procs) !! "/tmp/bcc-exporter-42" = None.
Proof.
  intros r.
  assert (H1 : validated denied procs r 5).
  { repeat split; try (vm_compute; reflexivity); try lia; vm_compute; discriminate. }
  assert (H2 : toolsFound denied) by (split; eexists; reflexivity).
  assert (H3 : mkdir_fault denied = None) by reflexivity.
  assert (H4 : run_err (capture denied procs "1" 5) = Some "exit status 255")
    by reflexivity.
  split; [exact (conj H1 (conj H2 (conj H3 H4)))|].
  destruct (C3_capture_failure_classified denied procs r 5 "exit status 255"
              H1 H2 H3 H4) as (Hs & _ & _ & _ & _ & _ & Hfs).
  split; [exact Hs|].
  apply Hfs; reflexivity.
Defined.

(** C3, as claimed, fails in its last part: where [perf] is not allowed to
    sample and nothing can be unlinked any more, the answer is 403 as
    claimed, [os.RemoveAll] is called last and fails, and the workspace is
    still there when the handler has returned. *)
Lemma C3_counterexample :
  let r := request [("pid", "1"); ("seconds", "5")] in
  let st' := serve (handlePprof deniedReadOnly r) procs in
  (validated deniedReadOnly procs r 5 ∧ toolsFound deniedReadOnly ∧
   mkdir_fault deniedReadOnly = None ∧
   run_err (capture deniedReadOnly procs "1" 5) = Some "exit status 255") ∧
  strings.Contains (run_stderr (capture deniedReadOnly procs "1" 5))
    "Permission denied" = true ∧
  status st' = http.StatusForbidden ∧
  last (trace st') = Some (EvRemoveAll "/tmp/bcc-exporter-42") ∧
  fs st' !! "/tmp/bcc-exporter-42" = Some (Dir 4096).
Proof.
  intros r st'. subst r st'.
  split; [|repeat split; vm_compute; reflexivity].
  split; [|split; [split; eexists; reflexivity | split; reflexivity]].
  repeat split; try (vm_compute; reflexivity); try lia; vm_compute; discriminate.
Qed.

(** C4, as the code has it.  A capture that exits with status zero and
    leaves an empty [perf.data] is not a success: the request fails with a
    diagnostic of its own, [perf.data file is empty - no samples collected],
    and with status 500 (the code files it with the server-side failures,
    next to a [perf.data] that is missing); the conversion is not started. *)
Theorem C4_empty_capture
    (env : World) (files : FS) (r : http.Request) (dur : Z) (n : node) :
  let pid := http.Get (http.query r) "pid" in
  let perfData := filepath_Join (workspace env) "perf.data" in
  validated env files r dur →
  toolsFound env →
  mkdir_fault env = None →
  run_err (capture env files pid dur) = None →
  stat_fault env perfData = None →
  run_fs (capture env files pid dur) !! perfData = Some n →
  nodeSize n = 0%Z →
  let st' := serve (handlePprof env r) files in
  status st' = http.StatusInternalServerError ∧
  reply st' = "perf.data file is empty - no samples collected" +:+ LF ∧
  reply st' ≠ "perf.data file was not created" +:+ LF ∧
  length (subprocesses (trace st')) = 1.
Proof.
  intros pid perfData Hv Htools Hmk Herr Hfault Hnode Hsize st'. subst st'.
  unfold serve, handlePprof. rewrite (runProfile_validated _ _ _ _ _ Hv).
  cbn [String.eqb Ascii.eqb Bool.eqb]. fold pid.
  enter_session Htools Hmk. step. step.
  fold (capture env files pid dur). rewrite Herr.
  step. fold perfData. rewrite Hfault, Hnode, Hsize.
  rewrite bool_decide_eq_true_2 by reflexivity.
  rewrite respond_apply; cbn [fst snd fs w trace deferred].
  rewrite (run_all_removal _ _ _ (workspace_nonempty env)).
  cbn [fst snd fs w trace deferred].
  repeat split; try reflexivity. discriminate.
Qed.

Lemma C4_empty_capture_witness :
  let r := request [("pid", "1"); ("seconds", "5")] in
  (validated idle procs r 5 ∧ toolsFound idle ∧ mkdir_fault idle = None ∧
   run_err (capture idle procs "1" 5) = None ∧
   stat_fault idle (filepath_Join (workspace idle) "perf.data") = None ∧
   run_fs (capture idle procs "1" 5) !! filepath_Join (workspace idle) "perf.data"
     = Some (File "") ∧
   nodeSize (File "") = 0%Z) ∧
  status (serve (handlePprof idle r) procs) = http.StatusInternalServerError.
Proof.
  intros r.
  assert (H1 : validated idle procs r 5).
  { repeat split; try (vm_compute; reflexivity); try lia; vm_compute; discriminate. }
  assert (H2 : toolsFound idle) by (split; eexists; reflexivity).
  assert (H3 : mkdir_fault idle = None) by reflexivity.
  assert (H4 : run_err (capture idle procs "1" 5) = None) by reflexivity.
  assert (H5 : stat_fault idle (filepath_Join (workspace idle) "perf.data") = None)
    by reflexivity.
  assert (H6 : run_fs (capture idle procs "1" 5)
                 !! filepath_Join (workspace idle) "perf.data" = Some (File ""))
    by (vm_compute; reflexivity).
  assert (H7 : nodeSize (File "") = 0%Z) by reflexivity.
  split; [exact (conj H1 (conj H2 (conj H3 (conj H4 (conj H5 (conj H6 H7))))))|].
  exact (proj1 (C4_empty_capture idle procs r 5 (File "") H1 H2 H3 H4 H5 H6 H7)).
Defined.

(** C4, as claimed, fails: on a machine where [perf] exits with status zero
    and records nothing, the answer is 500, not 400. *)
Lemma C4_counterexample :
  let r := request [("pid", "1"); ("seconds", "5")] in
  run_err (capture idle procs "1" 5) = None ∧
  run_fs (capture idle procs "1" 5) !! "/tmp/bcc-exporter-42/perf.data"
    = Some (File "") ∧
  status (serve (handlePprof idle r) procs) = 500%Z ∧
  status (serve (handlePprof idle r) procs) ≠ http.StatusBadRequest ∧
  reply (serve (handlePprof idle r) procs)
    = "perf.data file is empty - no samples collected" +:+ LF.
Proof.
  repeat split; try (vm_compute; reflexivity).
  vm_compute. discriminate.
Qed.

(** C5, as the code has it.  [runProfile] has two diagnostics for a bad
    duration, not three: [Missing pid or seconds] when it is absent and
    [Invalid seconds] both when it is not an integer and when it is out of
    range.  Two requests (each with a pid) rejected for their durations get
    different bodies exactly when one duration is missing and the other is
    not. *)
Theorem C5_two_duration_diagnostics
    (env1 env2 : World) (files1 files2 : FS) (r1 r2 : http.Request)
    (format1 format2 : string) (c1 c2 : Rejection) :
  http.Get (http.query r1) "pid" ≠ "" →
  http.Get (http.query r2) "pid" ≠ "" →
  rejection (http.Get (http.query r1) "seconds") = Some c1 →
  rejection (http.Get (http.query r2) "seconds") = Some c2 →
  let diagnostic c :=
    match c with
    | Missing => "Missing pid or seconds"
    | NotANumber | OutOfRange => "Invalid seconds"
    end in
  let body1 := reply (serve (runProfile env1 r1 format1) files1) in
  let body2 := reply (serve (runProfile env2 r2 format2) files2) in
  body1 = diagnostic c1 +:+ LF ∧
  body2 = diagnostic c2 +:+ LF ∧
  (body1 ≠ body2 ↔ (c1 = Missing ∧ c2 ≠ Missing) ∨ (c1 ≠ Missing ∧ c2 = Missing)).
Proof.
  intros Hp1 Hp2 Hc1 Hc2 diagnostic body1 body2.
  assert (Hbody : ∀ env files r format c,
    http.Get (http.query r) "pid" ≠ "" →
    rejection (http.Get (http.query r) "seconds") = Some c →
    reply (serve (runProfile env r format) files) = diagnostic c +:+ LF).
  { clear. intros env files r format c Hp Hc.
    unfold serve, runProfile, rejection in *.
    apply eqb_false_iff in Hp. rewrite Hp. simpl.
    destruct (String.eqb (http.Get (http.query r) "seconds") "").
    { by inversion Hc. }
    destruct (strconv.Atoi (http.Get (http.query r) "seconds")) as [n|e].
    - destruct (decide (1 ≤ n ≤ 300)%Z) as [Hr|Hr].
      + by rewrite (bool_decide_eq_true_2 _ Hr) in Hc.
      + rewrite (bool_decide_eq_false_2 _ Hr) in Hc. inversion Hc.
        assert (Hrng : bool_decide (n ≤ 0)%Z || bool_decide (n > 300)%Z = true).
        { destruct (decide (n ≤ 0)%Z).
          - rewrite bool_decide_eq_true_2; [reflexivity | assumption].
          - rewrite (bool_decide_eq_true_2 (n > 300)%Z); [apply orb_true_r | lia]. }
        by rewrite Hrng.
    - by inversion Hc. }
  assert (H1 : body1 = diagnostic c1 +:+ LF) by (by apply Hbody).
  assert (H2 : body2 = diagnostic c2 +:+ LF) by (by apply Hbody).
  split; [exact H1|]. split; [exact H2|].
  rewrite H1, H2.
  destruct c1, c2; simpl; split;
    solve [ intros H; by destruct H
          | intros [[? ?]|[? ?]]; congruence
          | intros _; (left + right); split; congruence
          | intros _; discriminate ].
Qed.

Lemma C5_two_duration_diagnostics_witness :
  let r1 := request [("pid", "1234")] in
  let r2 := request [("pid", "1234"); ("seconds", "abc")] in
  (http.Get (http.query r1) "pid" ≠ "" ∧
   http.Get (http.query r2) "pid" ≠ "" ∧
   rejection (http.Get (http.query r1) "seconds") = Some Missing ∧
   rejection (http.Get (http.query r2) "seconds") = Some NotANumber) ∧
  reply (serve (runProfile working r1 "pprof") procs) ≠
  reply (serve (runProfile working r2 "pprof") procs).
Proof.
  intros r1 r2.
  assert (H1 : http.Get (http.query r1) "pid" ≠ "") by (vm_compute; discriminate).
  assert (H2 : http.Get (http.query r2) "pid" ≠ "") by (vm_compute; discriminate).
  assert (H3 : rejection (http.Get (http.query r1) "seconds") = Some Missing)
    by (vm_compute; reflexivity).
  assert (H4 : rejection (http.Get (http.query r2) "seconds") = Some NotANumber)
    by (vm_compute; reflexivity).
  split; [by repeat split|].
  destruct (C5_two_duration_diagnostics working working procs procs r1 r2
              "pprof" "pprof" Missing NotANumber H1 H2 H3 H4) as (_ & _ & Hd).
  apply Hd. left. split; [reflexivity | discriminate].
Defined.

(** C5, as claimed, fails: a duration that is not a number and a duration
    that is out of range are rejected for different causes and get the very
    same body. *)
Lemma C5_counterexample :
  let r1 := request [("pid", "1234"); ("seconds", "abc")] in
  let r2 := request [("pid", "1234"); ("seconds", "500")] in
  rejection (http.Get (http.query r1) "seconds") = Some NotANumber ∧
  rejection (http.Get (http.query r2) "seconds") = Some OutOfRange ∧
  NotANumber ≠ OutOfRange ∧
  ¬ (reply (serve (runProfile working r1 "pprof") procs) ≠
     reply (serve (runProfile working r2 "pprof") procs)).
Proof.
  repeat split; try (vm_compute; reflexivity); try discriminate.
  intros H. apply H. vm_compute. reflexivity.
Qed.

(** C6, as the code has it.  [validatePID] reports a malformed identifier
    for every string that is not a non-negative integer, a sign followed by
    decimal digits excepted: the empty string, a string with a character
    that is neither a digit nor a leading sign, a sign on its own.  It does
    so before any [/proc] lookup, and the message differs from the message
    for a process that does not exist and from the message for a process
    that cannot be inspected, whatever pid or cause these carry.  (A signed
    number such as ["-1"] is the exception: its syntax is accepted.) *)
Theorem C6_malformed_pid (env : World) (st : State) (pid : string) :
  nonNegativeInteger pid = false →
  signedDigits pid = false →
  validatePID env pid st = (Some ("invalid PID format: " +:+ pid), st) ∧
  ∀ pid' cause : string,
    "invalid PID format: " +:+ pid ≠ "process with PID " +:+ pid' +:+ " does not exist" ∧
    "invalid PID format: " +:+ pid ≠ "cannot access process " +:+ pid' +:+ ": " +:+ cause.
Proof.
  intros Hnat Hsigned. unfold validatePID.
  rewrite (Atoi_malformed _ Hnat Hsigned). split; [reflexivity|].
  intros pid' cause. split; discriminate.
Qed.

Lemma C6_malformed_pid_witness :
  (nonNegativeInteger "12a" = false ∧ signedDigits "12a" = false) ∧
  validatePID working "12a" (start procs) =
    (Some "invalid PID format: 12a", start procs).
Proof.
  assert (H1 : nonNegativeInteger "12a" = false) by reflexivity.
  assert (H2 : signedDigits "12a" = false) by reflexivity.
  split; [exact (conj H1 H2)|].
  exact (proj1 (C6_malformed_pid working (start procs) "12a" H1 H2)).
Defined.

(** C6, as claimed, fails: ["-1"] is not a non-negative integer, yet
    [validatePID] accepts its syntax, looks [/proc/-1] up and reports that
    the process does not exist. *)
Lemma C6_counterexample :
  nonNegativeInteger "-1" = false ∧
  lookups (trace (validatePID working "-1" (start procs)).2) = ["/proc/-1"] ∧
  (validatePID working "-1" (start procs)).1 =
    Some "process with PID -1 does not exist" ∧
  ∀ (env : World) (st : State),
    (validatePID env "-1" st).1 ≠ Some ("invalid PID format: " +:+ "-1").
Proof.
  repeat split; try (vm_compute; reflexivity).
  intros env st. unfold validatePID.
  change (strconv.Atoi "-1") with (@Ok strconv.NumError Z (-1)%Z).
  cbv beta iota zeta. rewrite bind_apply, os_Stat_apply. cbn [fst snd].
  destruct (stat_fault env _); [discriminate|].
  destruct (fs st !! _); discriminate.
Qed.

(** C7. In test mode, with a pid and a duration within 1..300, both
    endpoints answer 200 with the text [generateMockProfile pid dur], which
    depends on nothing but the two values, contains both of them and has a
    folded-stack line; the two bodies are the same bytes, the content type
    is [application/octet-stream] on the binary endpoint and [text/plain]
    on the folded one. *)
Theorem C7_mock_profile
    (env : World) (files : FS) (r : http.Request) (dur : Z) :
  let pid := http.Get (http.query r) "pid" in
  pid ≠ "" →
  strconv.Atoi (http.Get (http.query r) "seconds") = Ok dur →
  (1 ≤ dur ≤ 300)%Z →
  http.Get (http.query r) "test" = "true" →
  let bin := serve (handlePprof env r) files in
  let txt := serve (handleFolded env r) files in
  status bin = http.StatusOK ∧ status txt = http.StatusOK ∧
  reply bin = generateMockProfile pid dur ∧
  reply txt = reply bin ∧
  contentType bin = Some ["application/octet-stream"] ∧
  contentType txt = Some ["text/plain"] ∧
  strings.Contains (reply bin) pid = true ∧
  strings.Contains (reply bin) (strconv.Itoa dur) = true ∧
  ∃ pre line suf,
    reply bin = pre +:+ LF +:+ line +:+ LF +:+ suf ∧ foldedLine line = true.
Proof.
  intros pid Hpid Hsec Hdur Htest bin txt.
  assert (Hseconds : http.Get (http.query r) "seconds" ≠ "").
  { intros E. rewrite E in Hsec. discriminate. }
  assert (Hrange : bool_decide (dur ≤ 0)%Z || bool_decide (dur > 300)%Z = false).
  { apply orb_false_intro; apply bool_decide_eq_false; lia. }
  assert (Hbin : reply bin = generateMockProfile pid dur ∧
                 status bin = http.StatusOK ∧
                 contentType bin = Some ["application/octet-stream"]).
  { subst bin. unfold serve, handlePprof, runProfile. fold pid.
    apply eqb_false_iff in Hpid, Hseconds.
    rewrite Hpid, Hseconds, Hsec, Hrange, Htest. done. }
  assert (Htxt : reply txt = generateMockProfile pid dur ∧
                 status txt = http.StatusOK ∧
                 contentType txt = Some ["text/plain"]).
  { subst txt. unfold serve, handleFolded, runProfile. fold pid.
    apply eqb_false_iff in Hpid, Hseconds.
    rewrite Hpid, Hseconds, Hsec, Hrange, Htest. done. }
  destruct Hbin as (Hb & Hsb & Hcb), Htxt as (Ht & Hst & Hct).
  rewrite Ht, Hb. repeat split; try done.
  - apply (Contains_intro "# Mock profile data for PID ").
  - unfold generateMockProfile.
    rewrite <- !append_assoc. rewrite append_assoc. apply Contains_intro.
  - exists ("# Mock profile data for PID " +:+ pid +:+ ", duration " +:+
            strconv.Itoa dur +:+ " seconds"),
      "main;runtime.main;main.main;net/http.ListenAndServe;net/http.(*Server).Serve 10",
      "main;runtime.main;main.main;net/http.ListenAndServe;net/http.(*Server).Serve;net/http.(*conn).serve 25
main;runtime.main;main.main;net/http.ListenAndServe;net/http.(*Server).Serve;net/http.(*conn).serve;net/http.serverHandler.ServeHTTP 15
redis-server;main;aeMain;aeProcessEvents;aeApiPoll 50
redis-server;main;aeMain;aeProcessEvents;processCommand;lookupCommand 30
redis-server;main;aeMain;aeProcessEvents;processCommand;call 40
".
    split; [|reflexivity].
    unfold generateMockProfile. rewrite !append_assoc. reflexivity.
Qed.

Lemma C7_mock_profile_witness :
  let r := request [("pid", "1234"); ("seconds", "5"); ("test", "true")] in
  (http.Get (http.query r) "pid" ≠ "" ∧
   strconv.Atoi (http.Get (http.query r) "seconds") = Ok 5%Z ∧
   (1 ≤ 5 ≤ 300)%Z ∧
   http.Get (http.query r) "test" = "true") ∧
  status (serve (handlePprof working r) procs) = http.StatusOK ∧
  status (serve (handleFolded working r) procs) = http.StatusOK ∧
  reply (serve (handlePprof working r) procs) = generateMockProfile "1234" 5.
Proof.
  intros r.
  assert (H1 : http.Get (http.query r) "pid" ≠ "") by (vm_compute; discriminate).
  assert (H2 : strconv.Atoi (http.Get (http.query r) "seconds") = Ok 5%Z)
    by (vm_compute; reflexivity).
  assert (H3 : (1 ≤ 5 ≤ 300)%Z) by lia.
  assert (H4 : http.Get (http.query r) "test" = "true") by (vm_compute; reflexivity).
  split; [by repeat split|].
  destruct (C7_mock_profile working procs r 5 H1 H2 H3 H4) as (Ha & Hb & Hc & _).
  by repeat split.
Defined.

(** C8. A folded-format request that is not in test mode and passes
    validation starts the profiler once, as [sudo profile-bpfcc -p pid -F 999
    -f dur].  If the run fails the answer is 500 with [Profiler failed],
    the error and the captured standard error, whatever that text says; if
    it succeeds the answer is 200, [text/plain], and the body is the
    captured standard output, byte for byte. *)
Theorem C8_text_pipeline
    (env : World) (files : FS) (r : http.Request) (dur : Z) :
  let pid := http.Get (http.query r) "pid" in
  validated env files r dur →
  let out := profiler env files pid dur in
  let st' := serve (handleFolded env r) files in
  subprocesses (trace st') =
    [("sudo", ["profile-bpfcc"; "-p"; pid; "-F"; "999"; "-f"; strconv.Itoa dur])] ∧
  match run_err out with
  | Some e =>
      status st' = http.StatusInternalServerError ∧
      reply st' = "Profiler failed: " +:+ e +:+ LF +:+ "Stderr: " +:+
                  run_stderr out +:+ LF ∧
      strings.Contains (reply st') (run_stderr out) = true
  | None =>
      status st' = http.StatusOK ∧
      contentType st' = Some ["text/plain"] ∧
      reply st' = run_stdout out
  end.
Proof.
  intros pid Hv out st'. subst st'.
  unfold serve, handleFolded. rewrite (runProfile_validated _ _ _ _ _ Hv).
  cbn [String.eqb Ascii.eqb Bool.eqb]. fold pid.
  rewrite runBCCProfile_run. fold out.
  destruct (run_err out) as [e|].
  - rewrite reply_Error. split; [reflexivity|]. split; [reflexivity|]. split.
    + by rewrite !append_assoc.
    + pose proof (Contains_intro ("Profiler failed: " +:+ e +:+ LF +:+ "Stderr: ")
                    (run_stderr out) LF) as Hc.
      by rewrite !append_assoc in *.
  - repeat split; reflexivity.
Qed.

Lemma C8_text_pipeline_witness :
  let r := request [("pid", "1"); ("seconds", "5")] in
  validated working procs r 5 ∧
  status (serve (handleFolded working r) procs) = http.StatusOK ∧
  reply (serve (handleFolded working r) procs) = "redis-server;main;aeMain 7" +:+ LF.
Proof.
  intros r.
  assert (H1 : validated working procs r 5).
  { repeat split; try (vm_compute; reflexivity); try lia; vm_compute; discriminate. }
  split; [exact H1|].
  destruct (C8_text_pipeline working procs r 5 H1) as (_ & Hs & _ & Hb).
  split; [exact Hs | exact Hb].
Defined.

(** C9. The folded path checks no tool and makes no workspace: after
    validation it starts the profiler at once.  A profiler that cannot be
    run therefore shows only as the 500 [Profiler failed] answer of the
    failed run, never as [Required tools not available].  That pre-check
    belongs to the binary pipeline, which looks for [perf] first: there a
    missing [perf] is answered with 500, the name of the tool and how to
    install it, before any workspace or subprocess. *)
Theorem C9_text_pipeline_unguarded
    (env : World) (files : FS) (r : http.Request) (dur : Z) :
  let pid := http.Get (http.query r) "pid" in
  validated env files r dur →
  let out := profiler env files pid dur in
  let txt := serve (handleFolded env r) files in
  let bin := serve (handlePprof env r) files in
  toolChecks (trace txt) = [] ∧
  workspaces (trace txt) = [] ∧
  (∃ rest, trace txt =
     [EvStat ("/proc/" +:+ pid);
      EvLog ("Running command: sudo profile-bpfcc -p " +:+ pid +:+ " -F 999 -f " +:+
             strconv.Itoa dur);
      EvRun "sudo" ["profile-bpfcc"; "-p"; pid; "-F"; "999"; "-f"; strconv.Itoa dur]]
     ++ rest) ∧
  match run_err out with
  | Some e =>
      status txt = http.StatusInternalServerError ∧
      strings.HasPrefix (reply txt) ("Profiler failed: " +:+ e) = true ∧
      strings.HasPrefix (reply txt) "Required tools not available" = false
  | None => status txt = http.StatusOK
  end ∧
  (∃ rest, trace bin = [EvStat ("/proc/" +:+ pid); EvLookPath "perf"] ++ rest) ∧
  match look_path env "perf" with
  | Err e =>
      status bin = http.StatusInternalServerError ∧
      reply bin = "Required tools not available: perf tool not found: " +:+ e +:+
                  ". Install with: sudo apt-get install linux-perf" +:+ LF ∧
      workspaces (trace bin) = [] ∧
      subprocesses (trace bin) = []
  | Ok _ => True
  end.
Proof.
  intros pid Hv out txt bin. subst txt bin.
  unfold serve, handleFolded, handlePprof.
  rewrite !(runProfile_validated _ _ _ _ _ Hv).
  cbn [String.eqb Ascii.eqb Bool.eqb]. fold pid.
  rewrite runBCCProfile_run. fold out.
  assert (Hcmd : strings.Join ["profile-bpfcc"; "-p"; pid; "-F"; "999"; "-f";
                               strconv.Itoa dur] " " =
                 "profile-bpfcc -p " +:+ pid +:+ " -F 999 -f " +:+ strconv.Itoa dur).
  { cbn [strings.Join]. reflexivity. }
  rewrite Hcmd.
  split; [by destruct (run_err out)|].
  split; [by destruct (run_err out)|].
  split; [destruct (run_err out); by eexists|].
  split; [|split].
  - destruct (run_err out) as [e|]; [|reflexivity].
    split; [reflexivity|]. split; [|reflexivity].
    match goal with
    | |- strings.HasPrefix ?b _ = true =>
        assert (Hb : b = ("Profiler failed: " +:+ e) +:+
                         (LF +:+ "Stderr: " +:+ run_stderr out +:+ LF))
          by (rewrite reply_Error, !append_assoc; reflexivity);
        rewrite Hb
    end.
    apply HasPrefix_app.
  - destruct (runPerfProfile_checks_first env pid dur (checked files pid))
      as [evs Hevs].
    exists evs. exact Hevs.
  - destruct (look_path env "perf") as [p|e] eqn:Hperf; [exact I|].
    rewrite (runPerfProfile_no_perf _ _ _ _ _ Hperf).
    split; [reflexivity|]. split; [|split; reflexivity].
    by rewrite reply_Error, !append_assoc.
Qed.

Lemma C9_text_pipeline_unguarded_witness :
  let r := request [("pid", "1"); ("seconds", "5")] in
  validated bare procs r 5 ∧
  toolChecks (trace (serve (handleFolded bare r) procs)) = [] ∧
  status (serve (handleFolded bare r) procs) = http.StatusInternalServerError ∧
  strings.HasPrefix (reply (serve (handleFolded bare r) procs))
    "Profiler failed: exit status 1" = true.
Proof.
  intros r.
  assert (H1 : validated bare procs r 5).
  { repeat split; try (vm_compute; reflexivity); try lia; vm_compute; discriminate. }
  split; [exact H1|].
  destruct (C9_text_pipeline_unguarded bare procs r 5 H1)
    as (Ht & _ & _ & (Hs & Hp & _) & _).
  split; [exact Ht|]. split; [exact Hs | exact Hp].
Defined.

(** C10. In test mode the pid is neither syntax-checked nor looked up: for
    any non-empty pid, numeric or not, the handler makes no call to the
    operating system (in particular no [/proc] lookup), and a duration
    within 1..300 gives status 200 with the pid copied into the body.  The
    duration is still validated: a [seconds] value that is not an integer
    in 1..300 gives status 400. *)
Theorem C10_test_mode_skips_pid_check
    (env : World) (files : FS) (r : http.Request) (format : string) :
  let pid := http.Get (http.query r) "pid" in
  let seconds := http.Get (http.query r) "seconds" in
  pid ≠ "" →
  http.Get (http.query r) "test" = "true" →
  let st' := serve (runProfile env r format) files in
  trace st' = [] ∧ lookups (trace st') = [] ∧
  match strconv.Atoi seconds with
  | Ok dur =>
      if bool_decide (1 ≤ dur ≤ 300)%Z then
        status st' = http.StatusOK ∧
        reply st' = generateMockProfile pid dur ∧
        strings.Contains (reply st') pid = true
      else status st' = http.StatusBadRequest
  | Err _ => status st' = http.StatusBadRequest
  end.
Proof.
  intros pid seconds Hpid Htest st'.
  assert (Hall : trace st' = [] ∧
    match strconv.Atoi seconds with
    | Ok dur =>
        if bool_decide (1 ≤ dur ≤ 300)%Z then
          status st' = http.StatusOK ∧ reply st' = generateMockProfile pid dur
        else status st' = http.StatusBadRequest
    | Err _ => status st' = http.StatusBadRequest
    end).
  { subst st'. unfold serve, runProfile. fold pid seconds.
    apply eqb_false_iff in Hpid. rewrite Hpid, Htest. simpl.
    destruct (String.eqb_spec seconds "") as [E|_].
    { rewrite E. by split. }
    destruct (strconv.Atoi seconds) as [dur|e]; [|by split].
    destruct (decide (1 ≤ dur ≤ 300)%Z) as [Hr|Hr];
      [rewrite (bool_decide_eq_true_2 _ Hr) | rewrite (bool_decide_eq_false_2 _ Hr)].
    - assert (Hrng : bool_decide (dur ≤ 0)%Z || bool_decide (dur > 300)%Z = false)
        by (apply orb_false_intro; apply bool_decide_eq_false; lia).
      rewrite Hrng. simpl. by destruct (String.eqb format "pprof").
    - assert (Hrng : bool_decide (dur ≤ 0)%Z || bool_decide (dur > 300)%Z = true).
      { destruct (decide (dur ≤ 0)%Z).
        - rewrite bool_decide_eq_true_2; [reflexivity | assumption].
        - rewrite (bool_decide_eq_true_2 (dur > 300)%Z); [apply orb_true_r | lia]. }
      rewrite Hrng. by split. }
  destruct Hall as [Htr Hres]. rewrite Htr. repeat split.
  destruct (strconv.Atoi seconds) as [dur|e]; [|exact Hres].
  case_bool_decide; [|exact Hres].
  destruct Hres as [Hs Hb]. repeat split; [exact Hs | exact Hb |].
  rewrite Hb. apply (Contains_intro "# Mock profile data for PID ").
Qed.

Lemma C10_test_mode_skips_pid_check_witness :
  let r := request [("pid", "abc"); ("seconds", "5"); ("test", "true")] in
  (http.Get (http.query r) "pid" ≠ "" ∧ http.Get (http.query r) "test" = "true") ∧
  trace (serve (runProfile working r "pprof") procs) = [] ∧
  status (serve (runProfile working r "pprof") procs) = http.StatusOK ∧
  strings.Contains (reply (serve (runProfile working r "pprof") procs)) "abc" = true.
Proof.
  intros r.
  assert (H1 : http.Get (http.query r) "pid" ≠ "") by (vm_compute; discriminate).
  assert (H2 : http.Get (http.query r) "test" = "true") by (vm_compute; reflexivity).
  split; [by split|].
  destruct (C10_test_mode_skips_pid_check working procs r "pprof" H1 H2)
    as (Ha & _ & Hc).
  split; [exact Ha|].
  change (strconv.Atoi (http.Get (http.query r) "seconds")) with (@Ok strconv.NumError Z 5%Z) in Hc.
  simpl in Hc. destruct Hc as (Hs & _ & Hb). by split.
Defined.

(** *** Further properties: authentication *)

(** X1. [basicAuth] runs the handler it wraps exactly when the request
    carries credentials, the user is [admin] and the password is the
    configured one, and then it adds nothing of its own.  Any other request
    is answered 401 [Unauthorized] with a [WWW-Authenticate] challenge; the
    wrapped handler is not run, so nothing is called and no file is
    touched. *)
Theorem X1_basicAuth_gate
    (BasicAuth : http.Request → string * string * bool) (handler : Handler)
    (password : string) (r : http.Request) (files : FS) :
  let '(user, pass, ok) := BasicAuth r in
  let st' := serve (basicAuth BasicAuth handler password r) files in
  if ok && String.eqb user "admin" && String.eqb pass password then
    st' = serve (handler r) files
  else
    status st' = http.StatusUnauthorized ∧
    reply st' = "Unauthorized" +:+ LF ∧
    http.header (w st') !! "WWW-Authenticate" =
      Some ["Basic realm=" +:+ DQUOTE +:+ "bcc-exporter" +:+ DQUOTE] ∧
    trace st' = [] ∧ fs st' = files.
Proof.
  unfold serve, basicAuth, subtle_ConstantTimeCompare.
  destruct (BasicAuth r) as [[user pass] ok].
  destruct ok; [|by repeat split].
  destruct (String.eqb user "admin"); [|by repeat split].
  destruct (String.eqb pass password); [reflexivity | by repeat split].
Qed.

(** X2. Both endpoints [main] registers are behind [basicAuth] when a
    password is configured: without the right credentials either one
    answers 401 and calls nothing.  With right credentials, or with no
    password configured (in which case credentials are not even read), each
    endpoint is served by its bare handler. *)
Theorem X2_routes_guarded
    (env : World) (BasicAuth : http.Request → string * string * bool)
    (password : string) (r : http.Request) (files : FS) :
  let '(user, pass, ok) := BasicAuth r in
  let authorised := ok && String.eqb user "admin" && String.eqb pass password in
  let bare (path : string) : Handler :=
    if String.eqb path "/debug/pprof/profile" then handlePprof env
    else handleFolded env in
  (fst <$> routes env BasicAuth password) =
    ["/debug/pprof/profile"; "/debug/folded/profile"] ∧
  Forall (λ ph : string * Handler,
            let st' := serve (ph.2 r) files in
            if negb (String.eqb password "") && negb authorised then
              status st' = http.StatusUnauthorized ∧ trace st' = [] ∧ fs st' = files
            else st' = serve (bare ph.1 r) files)
         (routes env BasicAuth password).
Proof.
  unfold routes.
  destruct (BasicAuth r) as [[user pass] ok] eqn:Hcreds.
  destruct (String.eqb password "") eqn:Hpw; cbn [negb andb].
  - split; [reflexivity|]. repeat constructor.
  - split; [reflexivity|].
    assert (Hgate : ∀ h : Handler,
      let st' := serve (basicAuth BasicAuth h password r) files in
      if negb (ok && String.eqb user "admin" && String.eqb pass password) then
        status st' = http.StatusUnauthorized ∧ trace st' = [] ∧ fs st' = files
      else st' = serve (h r) files).
    { intros h. unfold serve, basicAuth, subtle_ConstantTimeCompare. rewrite Hcreds.
      destruct ok; [|by repeat split].
      destruct (String.eqb user "admin"); [|by repeat split].
      destruct (String.eqb pass password); [reflexivity | by repeat split]. }
    repeat constructor; cbn [fst snd]; apply Hgate.
Qed.

(** *** Further properties: validation *)

(** [validatePID] only ever adds lookups to the trace. *)
Lemma validatePID_quiet (env : World) (pid : string) (st : State) :
  fs (validatePID env pid st).2 = fs st ∧
  w (validatePID env pid st).2 = w st ∧
  deferred (validatePID env pid st).2 = deferred st ∧
  (trace (validatePID env pid st).2 = trace st ∨
   trace (validatePID env pid st).2 = trace st ++ [EvStat ("/proc/" +:+ pid)]).
Proof.
  unfold validatePID. destruct (strconv.Atoi pid); [|by repeat split; left].
  rewrite bind_apply, os_Stat_apply. cbn [fst snd].
  destruct (stat_fault env _); [by repeat split; right|].
  destruct (fs st !! _); by repeat split; right.
Qed.

(** The error of [validatePID], cause by cause. *)
Lemma validatePID_error (env : World) (pid : string) (st : State) :
  (validatePID env pid st).1 =
  match strconv.Atoi pid with
  | Err _ => Some ("invalid PID format: " +:+ pid)
  | Ok _ =>
      match stat_fault env ("/proc/" +:+ pid) with
      | Some cause => Some ("cannot access process " +:+ pid +:+ ": " +:+ cause)
      | None =>
          match fs st !! ("/proc/" +:+ pid) with
          | None => Some ("process with PID " +:+ pid +:+ " does not exist")
          | Some _ => None
          end
      end
  end.
Proof.
  unfold validatePID. destruct (strconv.Atoi pid); [|reflexivity].
  rewrite bind_apply, os_Stat_apply. cbn [fst snd].
  destruct (stat_fault env _); [reflexivity|].
  by destruct (fs st !! _).
Qed.

(** X3. A request outside test mode with both parameters and a duration
    within 1..300, but a pid that [validatePID] turns down, is answered 400
    [Invalid PID: ...] on either endpoint.  The message names the cause:
    a pid that is not a number, a process that cannot be inspected, or a
    process that does not exist.  At most the one [/proc] lookup is made:
    no tool is looked up, no workspace made, no subprocess started, no file
    changed. *)
Theorem X3_invalid_pid_rejected
    (env : World) (files : FS) (r : http.Request) (format : string) (dur : Z) :
  let pid := http.Get (http.query r) "pid" in
  pid ≠ "" →
  strconv.Atoi (http.Get (http.query r) "seconds") = Ok dur →
  (1 ≤ dur ≤ 300)%Z →
  http.Get (http.query r) "test" ≠ "true" →
  (validatePID env pid (start files)).1 ≠ None →
  let st' := serve (runProfile env r format) files in
  status st' = http.StatusBadRequest ∧
  reply st' =
    "Invalid PID: " +:+
    match strconv.Atoi pid with
    | Err _ => "invalid PID format: " +:+ pid
    | Ok _ =>
        match stat_fault env ("/proc/" +:+ pid) with
        | Some cause => "cannot access process " +:+ pid +:+ ": " +:+ cause
        | None => "process with PID " +:+ pid +:+ " does not exist"
        end
    end +:+ LF ∧
  (trace st' = [] ∨ trace st' = [EvStat ("/proc/" +:+ pid)]) ∧
  fs st' = files.
Proof.
  intros pid Hpid Hsec Hdur Htest Hbad st'. subst st'.
  assert (Hseconds : http.Get (http.query r) "seconds" ≠ "").
  { intros E. rewrite E in Hsec. discriminate. }
  assert (Hrange : bool_decide (dur ≤ 0)%Z || bool_decide (dur > 300)%Z = false).
  { apply orb_false_intro; apply bool_decide_eq_false; lia. }
  unfold serve, runProfile. fold pid.
  apply eqb_false_iff in Hpid, Hseconds, Htest.
  rewrite Hpid, Hseconds, Hsec, Hrange, Htest. cbn [orb].
  rewrite bind_apply.
  destruct (validatePID_quiet env pid (start files)) as (Hfs & Hw & _ & Htr).
  pose proof (validatePID_error env pid (start files)) as Herr.
  destruct ((validatePID env pid (start files)).1) as [e|] eqn:He; [|congruence].
  rewrite respond_apply. cbn [fst snd].
  unfold status, reply. cbn [fs w trace]. rewrite Hw, Hfs.
  assert (He' : e =
    match strconv.Atoi pid with
    | Err _ => "invalid PID format: " +:+ pid
    | Ok _ =>
        match stat_fault env ("/proc/" +:+ pid) with
        | Some cause => "cannot access process " +:+ pid +:+ ": " +:+ cause
        | None => "process with PID " +:+ pid +:+ " does not exist"
        end
    end).
  { destruct (strconv.Atoi pid); [|congruence].
    destruct (stat_fault env _); [congruence|].
    destruct (fs (start files) !! _); [discriminate | congruence]. }
  rewrite <- He'.
  split; [reflexivity|]. split; [|split; [exact Htr | reflexivity]].
  rewrite body_Error. cbn. by rewrite append_assoc.
Qed.

Lemma X3_invalid_pid_rejected_witness :
  let r := request [("pid", "999999"); ("seconds", "5")] in
  (http.Get (http.query r) "pid" ≠ "" ∧
   strconv.Atoi (http.Get (http.query r) "seconds") = Ok 5%Z ∧
   (1 ≤ 5 ≤ 300)%Z ∧
   http.Get (http.query r) "test" ≠ "true" ∧
   (validatePID working (http.Get (http.query r) "pid") (start procs)).1 ≠ None) ∧
  status (serve (runProfile working r "pprof") procs) = http.StatusBadRequest ∧
  reply (serve (runProfile working r "pprof") procs) =
    "Invalid PID: process with PID 999999 does not exist" +:+ LF.
Proof.
  intros r.
  assert (H1 : http.Get (http.query r) "pid" ≠ "") by (vm_compute; discriminate).
  assert (H2 : strconv.Atoi (http.Get (http.query r) "seconds") = Ok 5%Z)
    by (vm_compute; reflexivity).
  assert (H3 : (1 ≤ 5 ≤ 300)%Z) by lia.
  assert (H4 : http.Get (http.query r) "test" ≠ "true") by (vm_compute; discriminate).
  assert (H5 : (validatePID working (http.Get (http.query r) "pid") (start procs)).1
               ≠ None) by (vm_compute; discriminate).
  split; [by repeat split|].
  destruct (X3_invalid_pid_rejected working procs r "pprof" 5 H1 H2 H3 H4 H5)
    as (Hs & Hb & _).
  split; [exact Hs | exact Hb].
Defined.

(** X4. No subprocess without validation: if a request makes [runProfile]
    start any subprocess at all, then it is not in test mode, it has a pid
    that [validatePID] accepted, and its duration is an integer within
    1..300. *)
Theorem X4_subprocess_only_after_validation
    (env : World) (files : FS) (r : http.Request) (format : string) :
  subprocesses (trace (serve (runProfile env r format) files)) ≠ [] →
  ∃ dur, validated env files r dur.
Proof.
  unfold serve, runProfile, validated.
  set (pid := http.Get (http.query r) "pid").
  set (seconds := http.Get (http.query r) "seconds").
  destruct (String.eqb_spec pid "") as [|Hpid]; [by (intros H; destruct H)|].
  destruct (String.eqb_spec seconds "") as [|Hseconds]; [by (intros H; destruct H)|].
  cbn [orb].
  destruct (strconv.Atoi seconds) as [dur|e] eqn:Hsec; [|by (intros H; destruct H)].
  destruct (decide (1 ≤ dur ≤ 300)%Z) as [Hdur|Hdur].
  2:{ assert (Hrng : bool_decide (dur ≤ 0)%Z || bool_decide (dur > 300)%Z = true).
      { destruct (decide (dur ≤ 0)%Z).
        - rewrite bool_decide_eq_true_2; [reflexivity | assumption].
        - rewrite (bool_decide_eq_true_2 (dur > 300)%Z); [apply orb_true_r | lia]. }
      rewrite Hrng. by (intros H; destruct H). }
  assert (Hrng : bool_decide (dur ≤ 0)%Z || bool_decide (dur > 300)%Z = false)
    by (apply orb_false_intro; apply bool_decide_eq_false; lia).
  rewrite Hrng.
  destruct (String.eqb_spec (http.Get (http.query r) "test") "true") as [|Htest].
  { destruct (String.eqb format "pprof"); by (intros H; destruct H). }
  rewrite bind_apply.
  destruct (validatePID_quiet env pid (start files)) as (_ & _ & _ & Htr).
  destruct ((validatePID env pid (start files)).1) as [e|] eqn:He.
  - rewrite respond_apply. cbn [fst snd trace].
    destruct Htr as [-> | ->]; by (intros H; destruct H).
  - intros _. exists dur.
    split; [exact Hpid|]. split; [reflexivity|]. split; [exact Hdur|].
    split; [exact Htest | reflexivity].
Qed.

Lemma X4_subprocess_only_after_validation_witness :
  let r := request [("pid", "1"); ("seconds", "5")] in
  subprocesses (trace (serve (runProfile working r "folded") procs)) ≠ [] ∧
  ∃ dur, validated working procs r dur.
Proof.
  intros r.
  assert (H : subprocesses (trace (serve (runProfile working r "folded") procs)) ≠ [])
    by (vm_compute; discriminate).
  split; [exact H|].
  exact (X4_subprocess_only_after_validation working procs r "folded" H).
Defined.

(** *** Further properties: what a handler may do *)

Section HoareRules.

Variable Q : http.ResponseWriter → Prop.
Variable E : Event → Prop.

Lemma hoare_ret {A} (a : A) : hoare Q E (mret a) (λ _, True).
Proof. intros st H. by split. Qed.

Lemma hoare_bind {A B} (m : M A) (f : A → M B) (R : A → Prop) (R' : B → Prop) :
  hoare Q E m R → (∀ a, R a → hoare Q E (f a) R') → hoare Q E (m ≫= f) R'.
Proof.
  intros Hm Hf st H. rewrite bind_apply.
  destruct (Hm st H) as [H1 Ha]. exact (Hf _ Ha _ H1).
Qed.

Lemma hoare_emit (e : Event) : E e → hoare Q E (emit e) (λ _, True).
Proof.
  intros He st (Hq & Ht & Hd). split; [|exact I].
  split; [exact Hq|]. split; [|exact Hd].
  cbn. apply Forall_app. split; [exact Ht | by constructor].
Qed.

Lemma hoare_respond f :
  (∀ wr, Q wr → Q (f wr)) → hoare Q E (respond f) (λ _, True).
Proof. intros Hf st (Hq & Ht & Hd). split; [|exact I]. split; [by apply Hf | by split]. Qed.

Lemma hoare_set_fs f : hoare Q E (set_fs f) (λ _, True).
Proof. intros st H. by split. Qed.

Lemma hoare_get_fs : hoare Q E get_fs (λ _, True).
Proof. intros st H. by split. Qed.

Lemma hoare_defer (d : Deferred) : E (eventOf d) → hoare Q E (defer d) (λ _, True).
Proof.
  intros He st (Hq & Ht & Hd). split; [|exact I].
  split; [exact Hq|]. split; [exact Ht | by constructor].
Qed.

Lemma hoare_log msg : E (EvLog msg) → hoare Q E (log_Printf msg) (λ _, True).
Proof. apply hoare_emit. Qed.

Lemma hoare_os_Stat env path :
  E (EvStat path) → hoare Q E (os_Stat env path) (λ _, True).
Proof.
  intros He st (Hq & Ht & Hd). rewrite os_Stat_apply. split; [|exact I].
  split; [exact Hq|]. split; [|exact Hd].
  cbn. apply Forall_app. split; [exact Ht | by constructor].
Qed.

Lemma hoare_exec_LookPath env file :
  E (EvLookPath file) → hoare Q E (exec_LookPath env file) (λ _, True).
Proof.
  intros He st (Hq & Ht & Hd). split; [|exact I].
  split; [exact Hq|]. split; [|exact Hd].
  cbn. apply Forall_app. split; [exact Ht | by constructor].
Qed.

Lemma hoare_exec_Run env name args :
  E (EvRun name args) → hoare Q E (exec_Run env name args) (λ _, True).
Proof.
  intros He st (Hq & Ht & Hd). rewrite exec_Run_apply. split; [|exact I].
  split; [exact Hq|]. split; [|exact Hd].
  cbn. apply Forall_app. split; [exact Ht | by constructor].
Qed.

(** The directory [os.MkdirTemp] returns for a session is its workspace. *)
Lemma hoare_os_MkdirTemp env :
  E (EvMkdirTemp "" "bcc-exporter-") →
  hoare Q E (os_MkdirTemp env "" "bcc-exporter-")
    (λ r, match r with Ok d => d = workspace env | Err _ => True end).
Proof.
  intros He st (Hq & Ht & Hd).
  unfold os_MkdirTemp, mbind, M_bind, mret, M_ret, emit, set_fs. cbn.
  destruct (mkdir_fault env); cbn; (split; [|done]);
    (split; [exact Hq|]); (split; [|exact Hd]);
    apply Forall_app; (split; [exact Ht | by constructor]).
Qed.

(** The file [os.Open] returns is the one asked for. *)
Lemma hoare_os_Open env path :
  E (EvOpen path) →
  hoare Q E (os_Open env path)
    (λ r, match r with Ok f => f_name f = path | Err _ => True end).
Proof.
  intros He st (Hq & Ht & Hd).
  unfold os_Open, mbind, M_bind, mret, M_ret, emit, get_fs. cbn.
  destruct (open_fault env path); [|destruct (fs st !! path)]; cbn;
    (split; [|done]); (split; [exact Hq|]); (split; [|exact Hd]);
    apply Forall_app; (split; [exact Ht | by constructor]).
Qed.

Lemma hoare_io_Copy env f :
  E (EvRead (f_name f)) → (∀ b wr, Q wr → Q (http.Write b wr)) →
  hoare Q E (io_Copy env f) (λ _, True).
Proof.
  intros He Hw. unfold io_Copy.
  eapply hoare_bind; [by apply hoare_emit|]. intros _ _.
  destruct (f_node f) as [size|content]; [apply hoare_ret|].
  destruct (read_fault env (f_name f)) as [[n e]|];
    (eapply hoare_bind; [|intros _ _; apply hoare_ret]);
    match goal with
    | |- context [String.eqb ?c ""] => destruct (String.eqb c "")
    end; first [apply hoare_ret | apply hoare_respond; intros wr; apply Hw].
Qed.

Lemma hoare_os_RemoveAll env path :
  E (EvRemoveAll path) → hoare Q E (os_RemoveAll env path) (λ _, True).
Proof.
  intros He. unfold os_RemoveAll. eapply hoare_bind; [by apply hoare_emit|].
  intros _ _. destruct (String.eqb path ""); [apply hoare_ret|].
  eapply hoare_bind; [apply hoare_get_fs|]. intros files _.
  eapply hoare_bind; [apply hoare_set_fs|]. intros _ _. apply hoare_ret.
Qed.

Lemma hoare_run_all env (ds : list Deferred) :
  Forall (λ d, E (eventOf d)) ds → hoare Q E (run_all env ds) (λ _, True).
Proof.
  induction ds as [|d ds IH]; intros Hds; [apply hoare_ret|].
  apply Forall_cons in Hds as [Hd Hds].
  cbn [run_all]. eapply hoare_bind; [|intros _ _; by apply IH].
  destruct d as [path|path]; cbn [run_deferred eventOf] in *.
  - eapply hoare_bind; [by apply hoare_os_RemoveAll|]. intros _ _. apply hoare_ret.
  - by apply hoare_emit.
Qed.

(** A function keeps the discipline if its body does: what the body
    defers is allowed, so running it on return is. *)
Lemma hoare_func env {A} (body : M A) (R : A → Prop) :
  hoare Q E body R → hoare Q E (func env body) R.
Proof.
  intros Hbody st (Hq & Ht & Hd). rewrite func_apply. cbn zeta.
  set (st0 := {| fs := fs st; w := w st; trace := trace st; deferred := [] |}).
  destruct (Hbody st0) as [(Hq1 & Ht1 & Hd1) HR]; [by repeat split|].
  destruct (hoare_run_all env _ Hd1 (body st0).2) as [(Hq2 & Ht2 & _) _];
    [by repeat split|].
  split; [|exact HR]. by repeat split.
Qed.

End HoareRules.

Lemma knownStatus_Error msg c wr :
  c = http.StatusOK ∨ c = http.StatusBadRequest ∨ c = http.StatusForbidden ∨
  c = http.StatusInternalServerError →
  knownStatus wr → knownStatus (http.Error msg c wr).
Proof. intros Hc H. destruct wr as [h [] c0 b]; [exact H | exact Hc]. Qed.

Lemma knownStatus_Write b wr : knownStatus wr → knownStatus (http.Write b wr).
Proof. intros H. destruct wr as [h [] c0 b0]; [exact H | by left]. Qed.

Lemma knownStatus_SetHeader k v wr :
  knownStatus wr → knownStatus (http.SetHeader k v wr).
Proof. intros H. exact H. Qed.

(** Settles that a call is permitted. *)
Ltac permit :=
  cbn [permitted eventOf]; unfold commands, perfDataPath, pprofPath;
  first [ exact I | reflexivity | by split | by left | by (right; left)
        | by (right; right) | set_solver ].

(** Settles that an answer has a known status. *)
Ltac known :=
  intros ? ?;
  first [ apply knownStatus_SetHeader; assumption
        | apply knownStatus_Write; assumption
        | apply knownStatus_Error; [unfold http.StatusOK, http.StatusBadRequest,
            http.StatusForbidden, http.StatusInternalServerError; tauto | assumption] ].

(** Walks through a handler, rule by rule. *)
Ltac walk :=
  lazymatch goal with
  | |- hoare _ _ (mbind _ _) _ => eapply hoare_bind; [walk | intros ? ?; walk]
  | |- hoare _ _ (mret _) _ => apply hoare_ret
  | |- hoare _ _ (func _ _) _ => apply hoare_func; walk
  | |- hoare _ _ (log_Printf _) _ => apply hoare_log; permit
  | |- hoare _ _ (emit _) _ => apply hoare_emit; permit
  | |- hoare _ _ (respond _) _ => apply hoare_respond; known
  | |- hoare _ _ (defer _) _ => apply hoare_defer; permit
  | |- hoare _ _ (os_Stat _ _) _ => apply hoare_os_Stat; permit
  | |- hoare _ _ (exec_LookPath _ _) _ => apply hoare_exec_LookPath; permit
  | |- hoare _ _ (exec_Run _ _ _) _ => apply hoare_exec_Run; permit
  | |- hoare _ _ (os_MkdirTemp _ _ _) _ => apply hoare_os_MkdirTemp; permit
  | |- hoare _ _ (os_Open _ _) _ => apply hoare_os_Open; permit
  | |- hoare _ _ (io_Copy _ _) _ =>
      apply hoare_io_Copy; [permit | intros ?; known]
  | |- hoare _ _ (match ?x with _ => _ end) _ =>
      destruct x; cbn beta iota in *; subst; walk
  | _ => idtac
  end.

Lemma runBCCProfile_hoare env pid dur :
  hoare knownStatus (permitted env pid dur) (runBCCProfile env pid dur) (λ _, True).
Proof. unfold runBCCProfile. cbv zeta. walk. Qed.

Lemma validatePID_hoare env pid dur :
  hoare knownStatus (permitted env pid dur) (validatePID env pid) (λ _, True).
Proof. unfold validatePID. cbv zeta. walk. Qed.

Lemma checkRequiredTools_hoare env pid dur :
  hoare knownStatus (permitted env pid dur) (checkRequiredTools env) (λ _, True).
Proof. unfold checkRequiredTools. walk. Qed.

Lemma runPerfProfile_hoare env pid dur :
  hoare knownStatus (permitted env pid dur) (runPerfProfile env pid dur) (λ _, True).
Proof.
  unfold runPerfProfile, checkRequiredTools. cbv zeta. walk.
Qed.

Lemma runProfile_hoare env r format :
  hoare knownStatus
    (permitted env (http.Get (http.query r) "pid")
       match strconv.Atoi (http.Get (http.query r) "seconds") with
       | Ok dur => dur
       | Err _ => 0%Z
       end)
    (runProfile env r format) (λ _, True).
Proof.
  unfold runProfile, validatePID, runPerfProfile, checkRequiredTools, runBCCProfile.
  cbv zeta. walk.
Qed.

(** X5. Whatever the request and whatever the machine does, [runProfile]
    answers with one of four statuses: 200, 400, 403 or 500. *)
Theorem X5_known_statuses
    (env : World) (files : FS) (r : http.Request) (format : string) :
  let st' := serve (runProfile env r format) files in
  status st' = 200%Z ∨ status st' = 400%Z ∨ status st' = 403%Z ∨ status st' = 500%Z.
Proof.
  intros st'. subst st'.
  destruct (runProfile_hoare env r format (start files)) as [(Hq & _) _].
  - split; [by left | by split].
  - exact Hq.
Qed.

(** X6. A request for a pid and a duration keeps to itself.  Every call
    [runProfile] makes for it is one of: a lookup of [/proc/<pid>] or of its
    own [perf.data] and [profile.pb.gz]; a search for [perf] or [pprof];
    the making of one [bcc-exporter-] workspace; one of the three commands
    ([perf record], [pprof -proto], [sudo profile-bpfcc]) built from that
    pid and that duration; the opening, reading and closing of its own
    profile; the removal of its own workspace; a log line. *)
Theorem X6_calls_permitted
    (env : World) (files : FS) (r : http.Request) (format : string) (dur : Z) :
  strconv.Atoi (http.Get (http.query r) "seconds") = Ok dur →
  Forall (permitted env (http.Get (http.query r) "pid") dur)
         (trace (serve (runProfile env r format) files)).
Proof.
  intros Hsec.
  destruct (runProfile_hoare env r format (start files)) as [(_ & Ht & _) _].
  - split; [by left | by split].
  - by rewrite Hsec in Ht.
Qed.

Lemma X6_calls_permitted_witness :
  let r := request [("pid", "1"); ("seconds", "5")] in
  strconv.Atoi (http.Get (http.query r) "seconds") = Ok 5%Z ∧
  Forall (permitted working "1" 5) (trace (serve (runProfile working r "pprof") procs)).
Proof.
  intros r.
  assert (H : strconv.Atoi (http.Get (http.query r) "seconds") = Ok 5%Z)
    by (vm_compute; reflexivity).
  split; [exact H|].
  exact (X6_calls_permitted working procs r "pprof" 5 H).
Defined.

(** *** Further properties: the binary pipeline, path by path *)

Lemma exec_LookPath_apply env file st :
  exec_LookPath env file st =
  (look_path env file,
   {| fs := fs st; w := w st; trace := trace st ++ [EvLookPath file];
      deferred := deferred st |}).
Proof. reflexivity. Qed.

Lemma run_all_nil env st : run_all env [] st = (tt, st).
Proof. reflexivity. Qed.

(** Opens the binary handler on a validated request. *)
Ltac binary Hv :=
  unfold serve, handlePprof; rewrite (runProfile_validated _ _ _ _ _ Hv);
  cbn [String.eqb Ascii.eqb Bool.eqb].

(** X7. When [perf] or [pprof] is not on the search path, a validated
    binary-format request is answered 500 [Required tools not available],
    naming the first missing tool ([perf] is looked up first) and how to
    install it.  Nothing else happens: no workspace, no subprocess, no
    change to the file system. *)
Theorem X7_tools_missing
    (env : World) (files : FS) (r : http.Request) (dur : Z) :
  validated env files r dur →
  (∃ e, look_path env "perf" = Err e) ∨ (∃ e, look_path env "pprof" = Err e) →
  let st' := serve (handlePprof env r) files in
  status st' = http.StatusInternalServerError ∧
  reply st' =
    "Required tools not available: " +:+
    match look_path env "perf", look_path env "pprof" with
    | Err e, _ =>
        "perf tool not found: " +:+ e +:+
        ". Install with: sudo apt-get install linux-perf"
    | Ok _, Err e =>
        "pprof tool not found: " +:+ e +:+
        ". Install with: go install github.com/google/pprof@latest"
    | Ok _, Ok _ => ""
    end +:+ LF ∧
  workspaces (trace st') = [] ∧
  subprocesses (trace st') = [] ∧
  fs st' = files.
Proof.
  intros Hv Hmiss st'. subst st'. binary Hv.
  set (pid := http.Get (http.query r) "pid").
  unfold runPerfProfile. rewrite func_apply.
  unfold checkRequiredTools.
  rewrite bind_apply, bind_apply, exec_LookPath_apply. cbn [fst snd].
  destruct (look_path env "perf") as [p1|e1] eqn:H1.
  - rewrite bind_apply, exec_LookPath_apply. cbn [fst snd].
    destruct (look_path env "pprof") as [p2|e2] eqn:H2.
    + exfalso. destruct Hmiss as [[e He]|[e He]]; congruence.
    + cbn [mret M_ret fst snd]. rewrite respond_apply.
      cbn [fst snd fs w trace deferred checked]. rewrite run_all_nil.
      cbn [fst snd fs w trace deferred]. rewrite reply_Error.
      repeat split; reflexivity.
  - cbn [mret M_ret fst snd]. rewrite respond_apply.
    cbn [fst snd fs w trace deferred checked]. rewrite run_all_nil.
    cbn [fst snd fs w trace deferred]. rewrite reply_Error.
    repeat split; reflexivity.
Qed.

Lemma X7_tools_missing_witness :
  let r := request [("pid", "1"); ("seconds", "5")] in
  (validated halfInstalled procs r 5 ∧
   ((∃ e, look_path halfInstalled "perf" = Err e) ∨
    (∃ e, look_path halfInstalled "pprof" = Err e))) ∧
  status (serve (handlePprof halfInstalled r) procs) = http.StatusInternalServerError ∧
  subprocesses (trace (serve (handlePprof halfInstalled r) procs)) = [].
Proof.
  intros r.
  assert (H1 : validated halfInstalled procs r 5).
  { repeat split; try (vm_compute; reflexivity); try lia; vm_compute; discriminate. }
  assert (H2 : (∃ e, look_path halfInstalled "perf" = Err e) ∨
               (∃ e, look_path halfInstalled "pprof" = Err e)).
  { right. eexists. reflexivity. }
  split; [exact (conj H1 H2)|].
  destruct (X7_tools_missing halfInstalled procs r 5 H1 H2) as (Hs & _ & _ & Hp & _).
  split; [exact Hs | exact Hp].
Defined.

Lemma os_MkdirTemp_fails (env : World) (st : State) (e : string) :
  mkdir_fault env = Some e →
  os_MkdirTemp env "" "bcc-exporter-" st =
  (Err e, {| fs := fs st; w := w st;
             trace := trace st ++ [EvMkdirTemp "" "bcc-exporter-"];
             deferred := deferred st |}).
Proof.
  intros H. unfold os_MkdirTemp, mbind, M_bind, mret, M_ret, emit.
  simpl. by rewrite H.
Qed.

(** X8. When the workspace cannot be made, a validated binary-format
    request is answered 500 [Failed to create temp directory] with the
    cause.  No subprocess is started, and since nothing was made nothing is
    removed: the file system is as it was. *)
Theorem X8_workspace_unavailable
    (env : World) (files : FS) (r : http.Request) (dur : Z) (e : string) :
  validated env files r dur →
  toolsFound env →
  mkdir_fault env = Some e →
  let st' := serve (handlePprof env r) files in
  status st' = http.StatusInternalServerError ∧
  reply st' = "Failed to create temp directory: " +:+ e +:+ LF ∧
  subprocesses (trace st') = [] ∧
  (∀ path, EvRemoveAll path ∉ trace st') ∧
  fs st' = files.
Proof.
  intros Hv Htools Hmk st'. subst st'. binary Hv.
  unfold runPerfProfile. rewrite func_apply.
  rewrite bind_apply, (checkRequiredTools_found _ _ Htools). cbn [fst snd].
  rewrite bind_apply, (os_MkdirTemp_fails _ _ _ Hmk). cbn [fst snd].
  rewrite respond_apply. cbn [fst snd fs w trace deferred checked].
  rewrite run_all_nil. cbn [fst snd fs w trace deferred]. rewrite reply_Error.
  split; [reflexivity|]. split; [reflexivity|]. split; [reflexivity|].
  split; [|reflexivity].
  intros path Hin. rewrite !elem_of_app, !list_elem_of_singleton in Hin.
  destruct Hin as [[[?|?]|?]|?]; discriminate.
Qed.

Lemma X8_workspace_unavailable_witness :
  let r := request [("pid", "1"); ("seconds", "5")] in
  (validated cramped procs r 5 ∧ toolsFound cramped ∧
   mkdir_fault cramped = Some "mkdir /tmp/bcc-exporter-42: no space left on device") ∧
  status (serve (handlePprof cramped r) procs) = http.StatusInternalServerError ∧
  fs (serve (handlePprof cramped r) procs) = procs.
Proof.
  intros r.
  assert (H1 : validated cramped procs r 5).
  { repeat split; try (vm_compute; reflexivity); try lia; vm_compute; discriminate. }
  assert (H2 : toolsFound cramped) by (split; eexists; reflexivity).
  assert (H3 : mkdir_fault cramped =
               Some "mkdir /tmp/bcc-exporter-42: no space left on device")
    by reflexivity.
  split; [exact (conj H1 (conj H2 H3))|].
  destruct (X8_workspace_unavailable cramped procs r 5 _ H1 H2 H3)
    as (Hs & _ & _ & _ & Hfs).
  split; [exact Hs | exact Hfs].
Defined.

Lemma os_Open_apply env path st :
  os_Open env path st =
  (match open_fault env path with
   | Some e => Err e
   | None =>
       match fs st !! path with
       | None => Err ("open " +:+ path +:+ ": no such file or directory")
       | Some n => Ok {| f_name := path; f_node := n |}
       end
   end,
   {| fs := fs st; w := w st; trace := trace st ++ [EvOpen path];
      deferred := deferred st |}).
Proof.
  unfold os_Open, mbind, M_bind, mret, M_ret, emit, get_fs. simpl.
  destruct (open_fault env path); [reflexivity|].
  by destruct (fs st !! path).
Qed.

Lemma defer_apply d st :
  defer d st =
  (tt, {| fs := fs st; w := w st; trace := trace st; deferred := d :: deferred st |}).
Proof. reflexivity. Qed.

(** [io.Copy] of a regular file: what was read before the fault, if any,
    goes to the response. *)
Lemma io_Copy_apply env path content st :
  io_Copy env {| f_name := path; f_node := File content |} st =
  let chunk := match read_fault env path with
               | None => content
               | Some (n, _) => String.substring 0 n content
               end in
  (match read_fault env path with None => None | Some (_, e) => Some e end,
   {| fs := fs st;
      w := if String.eqb chunk "" then w st else http.Write chunk (w st);
      trace := trace st ++ [EvRead path]; deferred := deferred st |}).
Proof.
  unfold io_Copy, mbind, M_bind, mret, M_ret, emit, respond. cbn.
  destruct (read_fault env path) as [[n e]|]; cbn;
    match goal with
    | |- context [String.eqb ?c ""] => by destruct (String.eqb c "")
    end.
Qed.

Lemma run_all_close_removal (env : World) (path dir : string) (st : State) :
  String.eqb dir "" = false →
  run_all env [DeferClose path; DeferRemoveAll dir] st =
  (tt, {| fs := removed env dir (fs st);
          w := w st; trace := (trace st ++ [EvClose path]) ++ [EvRemoveAll dir];
          deferred := deferred st |}).
Proof. intros H. rewrite run_all_cons. cbn [run_deferred]. by rewrite run_all_removal. Qed.

Lemma length_nonempty (s : string) : s ≠ "" → Z.of_nat (String.length s) ≠ 0%Z.
Proof. destruct s; [done | cbn; lia]. Qed.


Section Steps.

Variable env : World.
Context {B : Type}.
Variables (files : FS) (wr : http.ResponseWriter) (tr : list Event) (ds : list Deferred).
Variable k : unit → M B.

Lemma on_log msg :
  (log_Printf msg ≫= k) (mkState files wr tr ds) =
  k tt (mkState files wr (tr ++ [EvLog msg]) ds).
Proof. reflexivity. Qed.

Lemma on_respond f :
  (respond f ≫= k) (mkState files wr tr ds) = k tt (mkState files (f wr) tr ds).
Proof. reflexivity. Qed.

Lemma on_defer d :
  (defer d ≫= k) (mkState files wr tr ds) = k tt (mkState files wr tr (d :: ds)).
Proof. reflexivity. Qed.

End Steps.

Lemma on_exec_Run {B} env name args (k : RunOutcome → M B) files wr tr ds :
  (exec_Run env name args ≫= k) (mkState files wr tr ds) =
  k (run_cmd env name args files)
    (mkState (run_fs (run_cmd env name args files)) wr (tr ++ [EvRun name args]) ds).
Proof. reflexivity. Qed.

Lemma on_os_Stat {B} env path (k : StatResult → M B) files wr tr ds :
  (os_Stat env path ≫= k) (mkState files wr tr ds) =
  k (statResult env files path) (mkState files wr (tr ++ [EvStat path]) ds).
Proof. rewrite bind_apply, os_Stat_apply. reflexivity. Qed.

Lemma on_os_Open {B} env path (k : result string OpenFile → M B) files wr tr ds :
  (os_Open env path ≫= k) (mkState files wr tr ds) =
  k (match open_fault env path with
     | Some e => Err e
     | None =>
         match files !! path with
         | None => Err ("open " +:+ path +:+ ": no such file or directory")
         | Some n => Ok {| f_name := path; f_node := n |}
         end
     end)
    (mkState files wr (tr ++ [EvOpen path]) ds).
Proof. rewrite bind_apply, os_Open_apply. reflexivity. Qed.


Lemma on_io_Copy {B} env path content (k : error → M B) files wr tr ds :
  (io_Copy env {| f_name := path; f_node := File content |} ≫= k)
    (mkState files wr tr ds) =
  let chunk := match read_fault env path with
               | None => content
               | Some (n, _) => String.substring 0 n content
               end in
  k (match read_fault env path with None => None | Some (_, e) => Some e end)
    (mkState files (if String.eqb chunk "" then wr else http.Write chunk wr)
       (tr ++ [EvRead path]) ds).
Proof. rewrite bind_apply, io_Copy_apply. reflexivity. Qed.

Lemma on_io_Copy_dir {B} env path size (k : error → M B) files wr tr ds :
  (io_Copy env {| f_name := path; f_node := Dir size |} ≫= k)
    (mkState files wr tr ds) =
  k (Some ("read " +:+ path +:+ ": is a directory"))
    (mkState files wr (tr ++ [EvRead path]) ds).
Proof. reflexivity. Qed.

Lemma at_respond f files wr tr ds :
  respond f (mkState files wr tr ds) = (tt, mkState files (f wr) tr ds).
Proof. reflexivity. Qed.

Lemma at_log msg files wr tr ds :
  log_Printf msg (mkState files wr tr ds) = (tt, mkState files wr (tr ++ [EvLog msg]) ds).
Proof. reflexivity. Qed.

(** The stat of a file that is there. *)
Lemma statResult_present env files path n :
  stat_fault env path = None → files !! path = Some n →
  statResult env files path = StatInfo (nodeSize n).
Proof. intros H1 H2. unfold statResult. by rewrite H1, H2. Qed.

(** Opens a session: the tools are found, the workspace is made and its
    removal deferred.  What the body of [runPerfProfile] returns is kept
    aside as [Hres]. *)
Ltac open_session Htools Hmk Hres :=
  unfold runPerfProfile, conversion, capture, perfDataPath, pprofPath in *;
  rewrite func_apply;
  match goal with
  | |- context [let r := ?b in _] =>
      let res := fresh "res" in remember b as res eqn:Hres
  end;
  cbv zeta;
  cbn [checked fs w trace deferred] in Hres;
  rewrite bind_apply, (checkRequiredTools_found _ _ Htools) in Hres;
  cbn [fst snd fs w trace deferred app] in Hres;
  rewrite bind_apply, (os_MkdirTemp_ok _ _ Hmk) in Hres;
  cbn [fst snd fs w trace deferred app] in Hres;
  rewrite on_defer in Hres; cbv beta in Hres.

(** Runs the calls that come next, as far as they go without a choice. *)
Ltac run Hres :=
  repeat (first [ rewrite on_log in Hres | rewrite on_respond in Hres
                | rewrite on_defer in Hres | rewrite on_exec_Run in Hres
                | rewrite on_os_Stat in Hres | rewrite on_os_Open in Hres
                | rewrite on_io_Copy in Hres | rewrite on_io_Copy_dir in Hres
                | rewrite at_respond in Hres | rewrite at_log in Hres ];
          cbv beta iota zeta in Hres; cbn [app f_name f_node] in Hres).

(** Closes the session: the deferred calls run on the state the body
    left. *)
Ltac close_session env Hres :=
  rewrite Hres; cbn [fst snd fs w trace deferred];
  first [ rewrite (run_all_removal _ _ _ (workspace_nonempty env))
        | rewrite (run_all_close_removal _ _ _ _ (workspace_nonempty env)) ];
  cbn [fst snd fs w trace deferred app].

(** What is left of the workspace once its removal has been tried. *)
Ltac closed :=
  split; [reflexivity | intros Hok p Hp; by apply removed_clean].

(** X9. When [perf record] exits with status zero but no [perf.data] can
    be found afterwards (it is absent, or cannot be inspected), the request
    is answered 500 [perf.data file was not created]; the conversion is not
    started, and the handler ends by calling [os.RemoveAll] on the
    workspace: when that call succeeds nothing is left of it. *)
Theorem X9_capture_left_nothing
    (env : World) (files : FS) (r : http.Request) (dur : Z) :
  let pid := http.Get (http.query r) "pid" in
  validated env files r dur →
  recorded env files pid dur →
  is_Some (stat_fault env (perfDataPath env)) ∨
  run_fs (capture env files pid dur) !! perfDataPath env = None →
  let st' := serve (handlePprof env r) files in
  status st' = http.StatusInternalServerError ∧
  reply st' = "perf.data file was not created" +:+ LF ∧
  subprocesses (trace st') = take 1 (commands env pid dur) ∧
  last (trace st') = Some (EvRemoveAll (workspace env)) ∧
  fs st' = removed env (workspace env) (run_fs (capture env files pid dur)) ∧
  (remove_fault env (workspace env) (run_fs (capture env files pid dur)) = None →
   ∀ p, under (workspace env) p = true → fs st' !! p = None).
Proof.
  intros pid Hv (Htools & Hmk & Hcap) Hgone st'. subst st'. binary Hv. fold pid.
  open_session Htools Hmk Hres. run Hres.
  rewrite Hcap in Hres. run Hres. unfold statResult in Hres.
  destruct (stat_fault env _) as [cause|];
    [|destruct (run_fs _ !! _);
      [exfalso; destruct Hgone as [[? ?]|?]; congruence|]];
    run Hres; close_session env Hres;
    (split; [reflexivity|]; split; [reflexivity|]; split; [reflexivity|];
     split; [reflexivity | closed]).
Qed.

Lemma X9_capture_left_nothing_witness :
  let r := request [("pid", "1"); ("seconds", "5")] in
  (validated silent procs r 5 ∧ recorded silent procs "1" 5 ∧
   (is_Some (stat_fault silent (perfDataPath silent)) ∨
    run_fs (capture silent procs "1" 5) !! perfDataPath silent = None)) ∧
  status (serve (handlePprof silent r) procs) = http.StatusInternalServerError ∧
  reply (serve (handlePprof silent r) procs) = "perf.data file was not created" +:+ LF.
Proof.
  intros r.
  assert (H1 : validated silent procs r 5).
  { repeat split; try (vm_compute; reflexivity); try lia; vm_compute; discriminate. }
  assert (H2 : recorded silent procs "1" 5).
  { split; [split; eexists; reflexivity | by split]. }
  assert (H3 : is_Some (stat_fault silent (perfDataPath silent)) ∨
               run_fs (capture silent procs "1" 5) !! perfDataPath silent = None)
    by (right; vm_compute; reflexivity).
  split; [exact (conj H1 (conj H2 H3))|].
  destruct (X9_capture_left_nothing silent procs r 5 H1 H2 H3) as (Hs & Hb & _).
  split; [exact Hs | exact Hb].
Defined.

(** X10. When the conversion fails, the answer follows the standard error
    of [pprof]: 400 if it contains [no samples], otherwise 403 if it
    contains [permission denied], otherwise 500 with the error and the
    standard error as captured.  Both stages have run by then, no third
    command is started, and the handler ends by calling [os.RemoveAll] on
    the workspace: when that call succeeds nothing is left of it. *)
Theorem X10_conversion_failure_classified
    (env : World) (files : FS) (r : http.Request) (dur : Z) (e : string) :
  let pid := http.Get (http.query r) "pid" in
  validated env files r dur →
  sampled env files pid dur →
  run_err (conversion env files pid dur) = Some e →
  let stderr := run_stderr (conversion env files pid dur) in
  let st' := serve (handlePprof env r) files in
  status st' =
    (if strings.Contains stderr "no samples" then http.StatusBadRequest
     else if strings.Contains stderr "permission denied" then http.StatusForbidden
     else http.StatusInternalServerError) ∧
  reply st' =
    (if strings.Contains stderr "no samples" then
       "No samples found in perf.data - process may have been idle during profiling"
     else if strings.Contains stderr "permission denied" then
       "Permission denied accessing perf.data file"
     else "pprof conversion failed: " +:+ e +:+ LF +:+ "Stderr: " +:+ stderr) +:+ LF ∧
  subprocesses (trace st') = take 2 (commands env pid dur) ∧
  last (trace st') = Some (EvRemoveAll (workspace env)) ∧
  fs st' = removed env (workspace env) (run_fs (conversion env files pid dur)) ∧
  (remove_fault env (workspace env) (run_fs (conversion env files pid dur)) = None →
   ∀ p, under (workspace env) p = true → fs st' !! p = None).
Proof.
  intros pid Hv ((Htools & Hmk & Hcap) & Hsf & n & Hn & Hsz) Hconv stderr st'.
  subst st' stderr. binary Hv. fold pid.
  open_session Htools Hmk Hres. run Hres.
  rewrite Hcap in Hres. run Hres.
  rewrite (statResult_present _ _ _ _ Hsf Hn) in Hres.
  rewrite (bool_decide_eq_false_2 _ Hsz) in Hres. run Hres.
  rewrite Hconv in Hres. run Hres.
  (destruct (strings.Contains _ "no samples");
   [|destruct (strings.Contains _ "permission denied")]);
    run Hres; close_session env Hres;
    (split; [reflexivity|]; split; [reflexivity|]; split; [reflexivity|];
     split; [reflexivity | closed]).
Qed.

Lemma X10_conversion_failure_classified_witness :
  let r := request [("pid", "1"); ("seconds", "5")] in
  (validated unconverted procs r 5 ∧ sampled unconverted procs "1" 5 ∧
   run_err (conversion unconverted procs "1" 5) = Some "exit status 2") ∧
  status (serve (handlePprof unconverted r) procs) = http.StatusBadRequest.
Proof.
  intros r.
  assert (H1 : validated unconverted procs r 5).
  { repeat split; try (vm_compute; reflexivity); try lia; vm_compute; discriminate. }
  assert (H2 : sampled unconverted procs "1" 5).
  { split; [split; [split; eexists; reflexivity | by split]|].
    split; [reflexivity|]. exists (File "samples").
    split; [vm_compute; reflexivity | vm_compute; discriminate]. }
  assert (H3 : run_err (conversion unconverted procs "1" 5) = Some "exit status 2")
    by reflexivity.
  split; [exact (conj H1 (conj H2 H3))|].
  exact (proj1 (X10_conversion_failure_classified unconverted procs r 5 _ H1 H2 H3)).
Defined.

(** Runs a session through both stages, up to the look at the profile. *)
Ltac to_profile Hres Htools Hmk Hcap Hsf Hn Hsz Hconv :=
  open_session Htools Hmk Hres; run Hres;
  rewrite Hcap in Hres; run Hres;
  rewrite (statResult_present _ _ _ _ Hsf Hn) in Hres;
  rewrite (bool_decide_eq_false_2 _ Hsz) in Hres; run Hres;
  rewrite Hconv in Hres; run Hres.

(** X11. When [pprof] exits with status zero but leaves no usable profile,
    the request is answered 500: [pprof file was not created] if the file
    is absent or cannot be inspected, [pprof file is empty - conversion
    produced no data] if it is there with size zero.  The file is not
    opened, nothing of it is sent, and the handler ends by calling
    [os.RemoveAll] on the workspace: when that call succeeds nothing is left
    of it. *)
Theorem X11_conversion_left_nothing
    (env : World) (files : FS) (r : http.Request) (dur : Z) :
  let pid := http.Get (http.query r) "pid" in
  let found := statResult env (run_fs (conversion env files pid dur)) (pprofPath env) in
  validated env files r dur →
  sampled env files pid dur →
  run_err (conversion env files pid dur) = None →
  (∀ size, found = StatInfo size → size = 0%Z) →
  let st' := serve (handlePprof env r) files in
  status st' = http.StatusInternalServerError ∧
  reply st' =
    match found with
    | StatInfo _ => "pprof file is empty - conversion produced no data"
    | StatNotExist | StatFail _ => "pprof file was not created"
    end +:+ LF ∧
  (∀ path, EvOpen path ∉ trace st') ∧
  last (trace st') = Some (EvRemoveAll (workspace env)) ∧
  fs st' = removed env (workspace env) (run_fs (conversion env files pid dur)) ∧
  (remove_fault env (workspace env) (run_fs (conversion env files pid dur)) = None →
   ∀ p, under (workspace env) p = true → fs st' !! p = None).
Proof.
  intros pid found Hv ((Htools & Hmk & Hcap) & Hsf & n & Hn & Hsz) Hconv Hempty st'.
  subst st' found. binary Hv. fold pid.
  to_profile Hres Htools Hmk Hcap Hsf Hn Hsz Hconv.
  destruct (statResult env _ _) as [size| |cause];
    [rewrite (Hempty _ eq_refl), bool_decide_eq_true_2 in Hres by reflexivity| |];
    run Hres; close_session env Hres;
    (split; [reflexivity|]; split; [reflexivity|]; split;
     [|split; [reflexivity | closed]]);
    intros path Hin; repeat (apply elem_of_cons in Hin as [Hin|Hin]; [discriminate|]);
    by apply elem_of_nil in Hin.
Qed.

Lemma X11_conversion_left_nothing_witness :
  let r := request [("pid", "1"); ("seconds", "5")] in
  (validated halfway procs r 5 ∧ sampled halfway procs "1" 5 ∧
   run_err (conversion halfway procs "1" 5) = None ∧
   (∀ size, statResult halfway (run_fs (conversion halfway procs "1" 5))
              (pprofPath halfway) = StatInfo size → size = 0%Z)) ∧
  status (serve (handlePprof halfway r) procs) = http.StatusInternalServerError ∧
  reply (serve (handlePprof halfway r) procs) = "pprof file was not created" +:+ LF.
Proof.
  intros r.
  assert (H1 : validated halfway procs r 5).
  { repeat split; try (vm_compute; reflexivity); try lia; vm_compute; discriminate. }
  assert (H2 : sampled halfway procs "1" 5).
  { split; [split; [split; eexists; reflexivity | by split]|].
    split; [reflexivity|]. exists (File "samples").
    split; [vm_compute; reflexivity | vm_compute; discriminate]. }
  assert (H3 : run_err (conversion halfway procs "1" 5) = None) by reflexivity.
  assert (H4 : ∀ size, statResult halfway (run_fs (conversion halfway procs "1" 5))
                         (pprofPath halfway) = StatInfo size → size = 0%Z).
  { intros size. vm_compute. discriminate. }
  split; [exact (conj H1 (conj H2 (conj H3 H4)))|].
  destruct (X11_conversion_left_nothing halfway procs r 5 H1 H2 H3 H4) as (Hs & Hb & _).
  split; [exact Hs | exact Hb].
Defined.

(** Runs a session through both good stages, up to the opening of the
    profile. *)
Ltac to_open Hres Htools Hmk Hcap Hsf Hn Hsz Hconv Hsf2 Hn2 Hne :=
  to_profile Hres Htools Hmk Hcap Hsf Hn Hsz Hconv;
  rewrite (statResult_present _ _ _ _ Hsf2 Hn2) in Hres;
  cbn [nodeSize] in Hres;
  rewrite (bool_decide_eq_false_2 _ (length_nonempty _ Hne)) in Hres;
  run Hres.

(** X12. When the profile is there but cannot be opened, the request is
    answered 500 [Failed to open pprof file] with the cause; nothing is
    read, and the handler ends by calling [os.RemoveAll] on the workspace:
    when that call succeeds nothing is left of it. *)
Theorem X12_profile_cannot_be_opened
    (env : World) (files : FS) (r : http.Request) (dur : Z) (content e : string) :
  let pid := http.Get (http.query r) "pid" in
  validated env files r dur →
  converted env files pid dur content →
  open_fault env (pprofPath env) = Some e →
  let st' := serve (handlePprof env r) files in
  status st' = http.StatusInternalServerError ∧
  reply st' = "Failed to open pprof file: " +:+ e +:+ LF ∧
  (∀ path, EvRead path ∉ trace st') ∧
  last (trace st') = Some (EvRemoveAll (workspace env)) ∧
  fs st' = removed env (workspace env) (run_fs (conversion env files pid dur)) ∧
  (remove_fault env (workspace env) (run_fs (conversion env files pid dur)) = None →
   ∀ p, under (workspace env) p = true → fs st' !! p = None).
Proof.
  intros pid Hv (((Htools & Hmk & Hcap) & Hsf & n & Hn & Hsz) & Hconv & Hsf2 & Hn2 & Hne)
    Hopen st'.
  subst st'. binary Hv. fold pid.
  to_open Hres Htools Hmk Hcap Hsf Hn Hsz Hconv Hsf2 Hn2 Hne.
  rewrite Hopen in Hres. run Hres. close_session env Hres.
  split; [reflexivity|]. split; [reflexivity|].
  split; [|split; [reflexivity | closed]].
  intros path Hin. repeat (apply elem_of_cons in Hin as [Hin|Hin]; [discriminate|]).
  by apply elem_of_nil in Hin.
Qed.

(** Settles the stage hypotheses on an example machine. *)
Ltac example_stages :=
  repeat match goal with
         | |- validated _ _ _ _ =>
             repeat split; try (vm_compute; reflexivity); try lia;
             vm_compute; discriminate
         | |- toolsFound _ => split; eexists; reflexivity
         | |- ∃ n, _ !! _ = Some n ∧ _ =>
             eexists; split; [vm_compute; reflexivity | vm_compute; discriminate]
         | |- _ ∧ _ => split
         | |- _ = _ => vm_compute; reflexivity
         | |- _ ≠ _ => vm_compute; discriminate
         end.

Lemma X12_profile_cannot_be_opened_witness :
  let r := request [("pid", "1"); ("seconds", "5")] in
  (validated locked procs r 5 ∧ converted locked procs "1" 5 "PROFILE" ∧
   open_fault locked (pprofPath locked) =
     Some "open /tmp/bcc-exporter-42/profile.pb.gz: permission denied") ∧
  status (serve (handlePprof locked r) procs) = http.StatusInternalServerError.
Proof.
  intros r.
  assert (H1 : validated locked procs r 5) by example_stages.
  assert (H2 : converted locked procs "1" 5 "PROFILE")
    by (unfold converted, sampled, recorded; example_stages).
  assert (H3 : open_fault locked (pprofPath locked) =
               Some "open /tmp/bcc-exporter-42/profile.pb.gz: permission denied")
    by (vm_compute; reflexivity).
  split; [exact (conj H1 (conj H2 H3))|].
  exact (proj1 (X12_profile_cannot_be_opened locked procs r 5 _ _ H1 H2 H3)).
Defined.

(** X13. When both stages succeed and the profile can be read, the
    request is answered 200 with content type [application/octet-stream],
    a [Content-Disposition] that names the file [profile-<pid>-<dur>.pb.gz],
    and a body that is the profile [pprof] wrote, byte for byte.  The file
    is closed and then [os.RemoveAll] is called on the workspace, in that
    order: when that call succeeds nothing is left of the workspace. *)
Theorem X13_profile_served
    (env : World) (files : FS) (r : http.Request) (dur : Z) (content : string) :
  let pid := http.Get (http.query r) "pid" in
  validated env files r dur →
  converted env files pid dur content →
  open_fault env (pprofPath env) = None →
  read_fault env (pprofPath env) = None →
  let st' := serve (handlePprof env r) files in
  status st' = http.StatusOK ∧
  contentType st' = Some ["application/octet-stream"] ∧
  http.header (w st') !! "Content-Disposition" =
    Some ["attachment; filename=profile-" +:+ pid +:+ "-" +:+ strconv.Itoa dur +:+
          ".pb.gz"] ∧
  reply st' = content ∧
  subprocesses (trace st') = take 2 (commands env pid dur) ∧
  (∃ before, trace st' =
     before ++ [EvClose (pprofPath env); EvRemoveAll (workspace env)]) ∧
  fs st' = removed env (workspace env) (run_fs (conversion env files pid dur)) ∧
  (remove_fault env (workspace env) (run_fs (conversion env files pid dur)) = None →
   ∀ p, under (workspace env) p = true → fs st' !! p = None).
Proof.
  intros pid Hv (((Htools & Hmk & Hcap) & Hsf & n & Hn & Hsz) & Hconv & Hsf2 & Hn2 & Hne)
    Hopen Hread st'.
  subst st'. binary Hv. fold pid.
  to_open Hres Htools Hmk Hcap Hsf Hn Hsz Hconv Hsf2 Hn2 Hne.
  rewrite Hopen, Hn2 in Hres. run Hres.
  rewrite Hread in Hres. apply eqb_false_iff in Hne. rewrite Hne in Hres.
  run Hres. close_session env Hres.
  split; [reflexivity|]. split; [reflexivity|]. split; [reflexivity|].
  split; [reflexivity|]. split; [reflexivity|].
  split; [|closed].
  eexists. 
  match goal with |- ?l = _ => change l with (take 13 l ++ drop 13 l) end.
  reflexivity.
Qed.

Lemma X13_profile_served_witness :
  let r := request [("pid", "1"); ("seconds", "5")] in
  (validated working procs r 5 ∧ converted working procs "1" 5 "PROFILE" ∧
   open_fault working (pprofPath working) = None ∧
   read_fault working (pprofPath working) = None) ∧
  status (serve (handlePprof working r) procs) = http.StatusOK ∧
  reply (serve (handlePprof working r) procs) = "PROFILE".
Proof.
  intros r.
  assert (H1 : validated working procs r 5) by example_stages.
  assert (H2 : converted working procs "1" 5 "PROFILE")
    by (unfold converted, sampled, recorded; example_stages).
  assert (H3 : open_fault working (pprofPath working) = None) by reflexivity.
  assert (H4 : read_fault working (pprofPath working) = None) by reflexivity.
  split; [exact (conj H1 (conj H2 (conj H3 H4)))|].
  destruct (X13_profile_served working procs r 5 _ H1 H2 H3 H4)
    as (Hs & _ & _ & Hb & _).
  split; [exact Hs | exact Hb].
Defined.

(** X14. When reading the profile breaks off after [n] bytes, the handler
    sends no error and nothing more: the status stays 200, the body is the
    first [n] bytes of the profile, and the failure is only logged.  The
    file is still closed, and then [os.RemoveAll] is called on the workspace:
    when that call succeeds nothing is left of it. *)
Theorem X14_stream_breaks_off
    (env : World) (files : FS) (r : http.Request) (dur : Z) (content : string)
    (n : nat) (e : string) :
  let pid := http.Get (http.query r) "pid" in
  validated env files r dur →
  converted env files pid dur content →
  open_fault env (pprofPath env) = None →
  read_fault env (pprofPath env) = Some (n, e) →
  let st' := serve (handlePprof env r) files in
  status st' = http.StatusOK ∧
  reply st' = String.substring 0 n content ∧
  EvLog ("Failed to stream pprof file: " +:+ e) ∈ trace st' ∧
  (∃ before, trace st' =
     before ++ [EvClose (pprofPath env); EvRemoveAll (workspace env)]) ∧
  fs st' = removed env (workspace env) (run_fs (conversion env files pid dur)) ∧
  (remove_fault env (workspace env) (run_fs (conversion env files pid dur)) = None →
   ∀ p, under (workspace env) p = true → fs st' !! p = None).
Proof.
  intros pid Hv (((Htools & Hmk & Hcap) & Hsf & m & Hn & Hsz) & Hconv & Hsf2 & Hn2 & Hne)
    Hopen Hread st'.
  subst st'. binary Hv. fold pid.
  to_open Hres Htools Hmk Hcap Hsf Hn Hsz Hconv Hsf2 Hn2 Hne.
  rewrite Hopen, Hn2 in Hres. run Hres.
  rewrite Hread in Hres. 
  destruct (String.eqb_spec (String.substring 0 n content) "") as [Hc|Hc];
    run Hres; close_session env Hres.
  all: split; [reflexivity|]; split; [first [by rewrite Hc | reflexivity]|].
  all: split; [|split; [|closed]].
  all: try (rewrite !elem_of_cons; do 12 right; by left).
  all: eexists;
    match goal with |- ?l = _ => change l with (take 13 l ++ drop 13 l) end;
    reflexivity.
Qed.

Lemma X14_stream_breaks_off_witness :
  let r := request [("pid", "1"); ("seconds", "5")] in
  (validated flaky procs r 5 ∧ converted flaky procs "1" 5 "PROFILE" ∧
   open_fault flaky (pprofPath flaky) = None ∧
   read_fault flaky (pprofPath flaky) = Some (3, "unexpected EOF")) ∧
  status (serve (handlePprof flaky r) procs) = http.StatusOK ∧
  reply (serve (handlePprof flaky r) procs) = "PRO".
Proof.
  intros r.
  assert (H1 : validated flaky procs r 5) by example_stages.
  assert (H2 : converted flaky procs "1" 5 "PROFILE")
    by (unfold converted, sampled, recorded; example_stages).
  assert (H3 : open_fault flaky (pprofPath flaky) = None) by reflexivity.
  assert (H4 : read_fault flaky (pprofPath flaky) = Some (3, "unexpected EOF"))
    by reflexivity.
  split; [exact (conj H1 (conj H2 (conj H3 H4)))|].
  destruct (X14_stream_breaks_off flaky procs r 5 _ _ _ H1 H2 H3 H4)
    as (Hs & Hb & _).
  split; [exact Hs | exact Hb].
Defined.

(** *** Further properties: the earlier revision *)

(** X15. The two revisions of [runProfile] treat the parameters alike: a
    request in test mode, a request without pid, and a request whose
    duration is missing, not an integer or outside 1..300 leave the very
    same state behind (status, headers, body, calls) in both. *)
Theorem X15_revisions_agree
    (env : World) (files : FS) (r : http.Request) (format : string) :
  http.Get (http.query r) "test" = "true" ∨
  http.Get (http.query r) "pid" = "" ∨
  is_Some (rejection (http.Get (http.query r) "seconds")) →
  Legacy.runProfile env r format (start files) = runProfile env r format (start files).
Proof.
  unfold Legacy.runProfile, runProfile, rejection.
  set (pid := http.Get (http.query r) "pid").
  set (seconds := http.Get (http.query r) "seconds").
  intros Hwhy.
  destruct (String.eqb_spec pid "") as [|Hpid]; [reflexivity|].
  destruct (String.eqb_spec seconds "") as [|Hseconds]; [reflexivity|].
  cbn [orb].
  destruct (strconv.Atoi seconds) as [dur|e]; [|reflexivity].
  destruct (decide (1 ≤ dur ≤ 300)%Z) as [Hdur|Hdur].
  - assert (Hrng : bool_decide (dur ≤ 0)%Z || bool_decide (dur > 300)%Z = false)
      by (apply orb_false_intro; apply bool_decide_eq_false; lia).
    rewrite Hrng.
    destruct (String.eqb_spec (http.Get (http.query r) "test") "true") as [|Htest];
      [reflexivity|].
    exfalso. destruct Hwhy as [?|[?|Hrej]]; [done | done |].
    rewrite (bool_decide_eq_true_2 _ Hdur) in Hrej. by destruct Hrej.
  - assert (Hrng : bool_decide (dur ≤ 0)%Z || bool_decide (dur > 300)%Z = true).
    { destruct (decide (dur ≤ 0)%Z).
      - rewrite bool_decide_eq_true_2; [reflexivity | assumption].
      - rewrite (bool_decide_eq_true_2 (dur > 300)%Z); [apply orb_true_r | lia]. }
    by rewrite Hrng.
Qed.

Lemma X15_revisions_agree_witness :
  let r := request [("pid", "1234"); ("seconds", "301")] in
  (http.Get (http.query r) "test" = "true" ∨
   http.Get (http.query r) "pid" = "" ∨
   is_Some (rejection (http.Get (http.query r) "seconds"))) ∧
  Legacy.runProfile working r "folded" (start procs) =
  runProfile working r "folded" (start procs).
Proof.
  intros r.
  assert (H : http.Get (http.query r) "test" = "true" ∨
              http.Get (http.query r) "pid" = "" ∨
              is_Some (rejection (http.Get (http.query r) "seconds"))).
  { right. right. exists OutOfRange. vm_compute. reflexivity. }
  split; [exact H|].
  exact (X15_revisions_agree working procs r "folded" H).
Defined.

(** X16. Outside test mode the earlier revision had one pipeline for both
    endpoints: for any non-empty pid, numeric or not, and a duration within
    1..300 it started [sudo profile-bpfcc -p pid -f dur] once, without any
    look at [/proc] and without a sampling frequency.  Both endpoints sent
    the same body, the profiler's standard output on success, and differed
    in the content type alone. *)
Theorem X16_earlier_revision
    (env : World) (files : FS) (r : http.Request) (dur : Z) :
  let pid := http.Get (http.query r) "pid" in
  pid ≠ "" →
  strconv.Atoi (http.Get (http.query r) "seconds") = Ok dur →
  (1 ≤ dur ≤ 300)%Z →
  http.Get (http.query r) "test" ≠ "true" →
  let out := run_cmd env "sudo" ["profile-bpfcc"; "-p"; pid; "-f"; strconv.Itoa dur]
               files in
  let bin := serve (Legacy.handlePprof env r) files in
  let txt := serve (Legacy.handleFolded env r) files in
  lookups (trace bin) = [] ∧ lookups (trace txt) = [] ∧
  subprocesses (trace bin) =
    [("sudo", ["profile-bpfcc"; "-p"; pid; "-f"; strconv.Itoa dur])] ∧
  subprocesses (trace txt) = subprocesses (trace bin) ∧
  reply txt = reply bin ∧
  match run_err out with
  | Some e =>
      status bin = http.StatusInternalServerError ∧
      status txt = http.StatusInternalServerError ∧
      reply bin = "Profiler failed: " +:+ e +:+ LF +:+ "Stderr: " +:+
                  run_stderr out +:+ LF
  | None =>
      status bin = http.StatusOK ∧ status txt = http.StatusOK ∧
      contentType bin = Some ["application/octet-stream"] ∧
      contentType txt = Some ["text/plain"] ∧
      reply bin = run_stdout out
  end.
Proof.
  intros pid Hpid Hsec Hdur Htest out bin txt. subst bin txt.
  assert (Hseconds : http.Get (http.query r) "seconds" ≠ "").
  { intros E. rewrite E in Hsec. discriminate. }
  assert (Hrange : bool_decide (dur ≤ 0)%Z || bool_decide (dur > 300)%Z = false).
  { apply orb_false_intro; apply bool_decide_eq_false; lia. }
  unfold serve, Legacy.handlePprof, Legacy.handleFolded, Legacy.runProfile, start.
  fold pid. apply eqb_false_iff in Hpid, Hseconds, Htest.
  rewrite Hpid, Hseconds, Hsec, Hrange, Htest.
  cbn [orb String.eqb Ascii.eqb Bool.eqb].
  rewrite !on_log, !on_exec_Run. fold out.
  destruct (run_err out) as [e|].
  - rewrite !on_log, !at_respond. cbn [snd trace w].
    repeat split; try reflexivity.
    unfold reply. cbn [w]. rewrite body_Error. cbn. by rewrite !append_assoc.
  - rewrite !on_respond, !at_respond. cbn [snd trace w].
    repeat split; reflexivity.
Qed.

Lemma X16_earlier_revision_witness :
  let r := request [("pid", "abc"); ("seconds", "5")] in
  (http.Get (http.query r) "pid" ≠ "" ∧
   strconv.Atoi (http.Get (http.query r) "seconds") = Ok 5%Z ∧
   (1 ≤ 5 ≤ 300)%Z ∧
   http.Get (http.query r) "test" ≠ "true") ∧
  subprocesses (trace (serve (Legacy.handlePprof working r) procs)) =
    [("sudo", ["profile-bpfcc"; "-p"; "abc"; "-f"; "5"])] ∧
  lookups (trace (serve (Legacy.handlePprof working r) procs)) = [].
Proof.
  intros r.
  assert (H1 : http.Get (http.query r) "pid" ≠ "") by (vm_compute; discriminate).
  assert (H2 : strconv.Atoi (http.Get (http.query r) "seconds") = Ok 5%Z)
    by (vm_compute; reflexivity).
  assert (H3 : (1 ≤ 5 ≤ 300)%Z) by lia.
  assert (H4 : http.Get (http.query r) "test" ≠ "true") by (vm_compute; discriminate).
  split; [by repeat split|].
  destruct (X16_earlier_revision working procs r 5 H1 H2 H3 H4) as (Hl & _ & Hp & _).
  split; [exact Hp | exact Hl].
Defined.

(** *** Further properties: what a 200 means *)

(** X17. Outside test mode a 200 from the binary endpoint never hides a
    failed stage: if a validated request is answered 200, then both tools
    were found, the workspace was made, [perf record] and [pprof] both ran
    and both exited with status zero. *)
Theorem X17_ok_means_both_stages_succeeded
    (env : World) (files : FS) (r : http.Request) (dur : Z) :
  let pid := http.Get (http.query r) "pid" in
  validated env files r dur →
  status (serve (handlePprof env r) files) = http.StatusOK →
  toolsFound env ∧ mkdir_fault env = None ∧
  run_err (capture env files pid dur) = None ∧
  run_err (conversion env files pid dur) = None ∧
  subprocesses (trace (serve (handlePprof env r) files)) = take 2 (commands env pid dur).
Proof.
  intros pid Hv. binary Hv. fold pid.
  destruct (look_path env "perf") as [p1|e1] eqn:H1.
  2:{ rewrite (runPerfProfile_no_perf _ _ _ _ _ H1). intros H. discriminate H. }
  destruct (look_path env "pprof") as [p2|e2] eqn:H2.
  2:{ unfold runPerfProfile. rewrite func_apply. unfold checkRequiredTools.
      rewrite bind_apply, bind_apply, exec_LookPath_apply. cbn [fst snd]. rewrite H1.
      rewrite bind_apply, exec_LookPath_apply. cbn [fst snd]. rewrite H2.
      cbn [mret M_ret fst snd]. rewrite respond_apply.
      cbn [fst snd fs w trace deferred checked]. rewrite run_all_nil.
      intros H. discriminate H. }
  assert (Htools : toolsFound env) by (split; eexists; eassumption).
  destruct (mkdir_fault env) as [e|] eqn:Hmk.
  { unfold runPerfProfile. rewrite func_apply.
    rewrite bind_apply, (checkRequiredTools_found _ _ Htools). cbn [fst snd].
    rewrite bind_apply, (os_MkdirTemp_fails _ _ _ Hmk). cbn [fst snd].
    rewrite respond_apply. cbn [fst snd fs w trace deferred checked].
    rewrite run_all_nil. intros H. discriminate H. }
  open_session Htools Hmk Hres. run Hres.
  destruct (run_err (run_cmd env "perf" _ _)) as [e|] eqn:Hcap.
  { run Hres.
    (destruct (strings.Contains _ "Permission denied");
     [|destruct (strings.Contains _ "No such process")]);
      run Hres; close_session env Hres; intros H; discriminate H. }
  run Hres.
  destruct (statResult env _ _) as [size| |cause];
    [destruct (bool_decide (size = 0%Z))| |];
    try (run Hres; close_session env Hres; intros H; discriminate H).
  run Hres.
  destruct (run_err (run_cmd env "pprof" _ _)) as [e|] eqn:Hconv.
  { run Hres.
    (destruct (strings.Contains _ "no samples");
     [|destruct (strings.Contains _ "permission denied")]);
      run Hres; close_session env Hres; intros H; discriminate H. }
  run Hres.
  destruct (statResult env _ _) as [size2| |cause];
    [destruct (bool_decide (size2 = 0%Z))| |];
    try (run Hres; close_session env Hres; intros H; discriminate H).
  run Hres.
  destruct (open_fault env _) as [e|];
    [|destruct (run_fs _ !! _) as [[size3|content]|]];
    try (run Hres; close_session env Hres; intros H; discriminate H).
  - run Hres. close_session env Hres. intros _.
    split; [exact Htools|]. repeat split; reflexivity.
  - run Hres.
    destruct (read_fault env _) as [[n e]|];
      match type of Hres with
      | context [String.eqb ?c ""] => destruct (String.eqb c "")
      end;
      run Hres; close_session env Hres; intros _;
      (split; [exact Htools|]; repeat split; reflexivity).
Qed.

Lemma X17_ok_means_both_stages_succeeded_witness :
  let r := request [("pid", "1"); ("seconds", "5")] in
  (validated working procs r 5 ∧
   status (serve (handlePprof working r) procs) = http.StatusOK) ∧
  run_err (capture working procs "1" 5) = None ∧
  run_err (conversion working procs "1" 5) = None.
Proof.
  intros r.
  assert (H1 : validated working procs r 5) by example_stages.
  assert (H2 : status (serve (handlePprof working r) procs) = http.StatusOK)
    by (vm_compute; reflexivity).
  split; [exact (conj H1 H2)|].
  destruct (X17_ok_means_both_stages_succeeded working procs r 5 H1 H2)
    as (_ & _ & Hc & Hv & _).
  split; [exact Hc | exact Hv].
Defined.
